(** * Provisioning scripts: install-faster-whisper.py and install-whisper-deps.py

    A shallow embedding of the two setup scripts under [scripts/].  Both are
    straight-line Python programs whose only interesting behaviour is the
    order of the external commands they issue, which failures they catch,
    and the exit status of the process.

    The embedding is an exception-and-trace monad over a [World]: the host
    answers every subprocess invocation and every import as a function of
    the history so far, and each call is appended, with its answer, to the
    trace of the run. *)

From Stdlib Require Import String Ascii List ZArith Lia Bool.
Import ListNotations.
Open Scope string_scope.

(** ** The Python runtime as the scripts see it *)

Module Py.

(** The exception classes that occur in the scripts' [except] clauses, with
    the ancestors that decide whether a clause matches.  All of them derive
    from [Exception]; [SystemExit] does not and is kept apart in [raised]. *)
Inductive exc_class : Type :=
| Exception
| OSError
| FileNotFoundError
| SubprocessError
| CalledProcessError
| ImportError
| ModuleNotFoundError
| RuntimeError.

Definition exc_class_eqb (c d : exc_class) : bool :=
  match c, d with
  | Exception, Exception
  | OSError, OSError
  | FileNotFoundError, FileNotFoundError
  | SubprocessError, SubprocessError
  | CalledProcessError, CalledProcessError
  | ImportError, ImportError
  | ModuleNotFoundError, ModuleNotFoundError
  | RuntimeError, RuntimeError => true
  | _, _ => false
  end.

(** Method resolution order of a class, itself first. *)
Definition mro (c : exc_class) : list exc_class :=
  match c with
  | Exception => [Exception]
  | OSError => [OSError; Exception]
  | FileNotFoundError => [FileNotFoundError; OSError; Exception]
  | SubprocessError => [SubprocessError; Exception]
  | CalledProcessError => [CalledProcessError; SubprocessError; Exception]
  | ImportError => [ImportError; Exception]
  | ModuleNotFoundError => [ModuleNotFoundError; ImportError; Exception]
  | RuntimeError => [RuntimeError; Exception]
  end.

Definition issubclass (c d : exc_class) : bool :=
  existsb (exc_class_eqb d) (mro c).

(** An exception object: its class and the text [str(e)] gives. *)
Record exception : Type := mkExc { exc_type : exc_class; exc_str : string }.

(** [isinstance e (A, B, ...)] *)
Definition isinstance (e : exception) (classes : list exc_class) : bool :=
  existsb (issubclass (exc_type e)) classes.

(** What unwinds the stack: [sys.exit] raises [SystemExit], which no
    [except Exception] clause catches.  Asynchronous interrupts
    (KeyboardInterrupt) are not part of the model. *)
Inductive raised : Type :=
| SystemExit (code : Z)
| Exc (e : exception).

Inductive outcome (A : Type) : Type :=
| Return (a : A)
| Raise (r : raised).
Arguments Return {A} a.
Arguments Raise {A} r.

(** A child process is started either through the shell
    ([subprocess.run(cmd, shell=True)]) or from an argument vector
    ([subprocess.check_call([...])]). *)
Inductive command : Type :=
| Shell (line : string)
| Argv (argv : list string).

(** The host's answer to starting a child: it ran to completion with a
    return code and its output, or starting it (or decoding its output)
    raised. *)
Inductive completion : Type :=
| Completed (returncode : Z) (stdout stderr : string)
| Failed (e : exception).

Inductive event : Type :=
| Print (text : string)
| Spawn (cmd : command) (o : completion)
| Import (module : string) (o : option exception)
| LoadModel (name : string) (o : option exception).

(** The [argparse] namespace of install-whisper-deps.py. *)
Record Namespace : Type := mkNamespace { skip_ffmpeg : bool; test : bool }.

(** The host.  [popen], [import_module] and [load_model] answer as a
    function of everything that has happened in the run so far, so a
    command may fail the first time and succeed the second.
    [parse_args] is the namespace [parser.parse_args()] returns: argparse's
    own exits (usage error, --help) happen before any step of the script
    and are not modelled. *)
Record World : Type := mkWorld {
  platform_system : string;
  path_exists : string -> bool;
  version_info : list nat;
  sys_version : string;
  sys_executable : string;
  parse_args : Namespace;
  popen : list event -> command -> completion;
  import_module : list event -> string -> option exception;
  load_model : list event -> string -> option exception;
  called_process_error_str : list string -> Z -> string
}.

(** *** The monad *)

Definition M (A : Type) : Type := World -> list event -> outcome A * list event.

Definition ret {A} (a : A) : M A := fun _ tr => (Return a, tr).

Definition bind {A B} (c : M A) (k : A -> M B) : M B :=
  fun w tr =>
    match c w tr with
    | (Return a, tr') => k a w tr'
    | (Raise r, tr') => (Raise r, tr')
    end.

Definition raise {A} (r : raised) : M A := fun _ tr => (Raise r, tr).

Definition ask {A} (f : World -> A) : M A := fun w tr => (Return (f w), tr).

(** [try: body  except (classes) as e: handler e  except ...]: the first
    clause whose classes match the exception handles it; what a handler
    raises is not offered to the other clauses. *)
Fixpoint select_clause {A} (e : exception)
         (clauses : list (list exc_class * (exception -> M A)))
  : option (M A) :=
  match clauses with
  | [] => None
  | (classes, handler) :: rest =>
      if isinstance e classes then Some (handler e) else select_clause e rest
  end.

Definition try_except {A} (body : M A)
           (clauses : list (list exc_class * (exception -> M A))) : M A :=
  fun w tr =>
    match body w tr with
    | (Raise (Exc e), tr') =>
        match select_clause e clauses with
        | Some h => h w tr'
        | None => (Raise (Exc e), tr')
        end
    | r => r
    end.

(** [if cond: body] with no [else]. *)
Definition when (cond : bool) (body : M unit) : M unit :=
  if cond then body else ret tt.

(** [for x in xs: body x] *)
Fixpoint for_each {A} (xs : list A) (body : A -> M unit) : M unit :=
  match xs with
  | [] => ret tt
  | x :: xs' => bind (body x) (fun _ => for_each xs' body)
  end.

Declare Scope py_scope.
Delimit Scope py_scope with py.
Notation "x <- c ;; k" := (bind c (fun x => k))
  (at level 100, c at next level, k at level 200, right associativity) : py_scope.
Notation "' pat <- c ;; k" := (bind c (fun x => match x with pat => k end))
  (at level 100, pat pattern, c at next level, k at level 200,
   right associativity) : py_scope.
Notation "c ;; k" := (bind c (fun _ => k))
  (at level 100, k at level 200, right associativity) : py_scope.
Notation "'try' b 'except' cs '=>' h" := (try_except b [(cs, h)])
  (at level 10, b at level 200, cs at level 200, h at level 200,
   only parsing) : py_scope.
Open Scope py_scope.

(** *** Builtins and library calls *)

(** The trace is kept in the order things happened. *)
Definition log (tr : list event) (ev : event) : list event :=
  (tr ++ [ev])%list.

Definition print (text : string) : M unit :=
  fun _ tr => (Return tt, log tr (Print text)).

Definition sys_exit {A} (code : Z) : M A := raise (SystemExit code).

(** The object [subprocess.run] returns. *)
Record CompletedProcess : Type :=
  mkCompleted { returncode : Z; stdout : string; stderr : string }.

(** [subprocess.run(command, shell=True, capture_output=True, text=True)]:
    no [check=True], so a non-zero return code is not an exception. *)
Definition subprocess_run (line : string) : M CompletedProcess :=
  fun w tr =>
    let o := popen w tr (Shell line) in
    let tr' := log tr (Spawn (Shell line) o) in
    match o with
    | Completed rc out err => (Return (mkCompleted rc out err), tr')
    | Failed e => (Raise (Exc e), tr')
    end.

(** [subprocess.check_call(argv)]: a non-zero return code raises
    [CalledProcessError].  Redirecting the child's output to DEVNULL does
    not change the call's result. *)
Definition check_call (argv : list string) : M unit :=
  fun w tr =>
    let o := popen w tr (Argv argv) in
    let tr' := log tr (Spawn (Argv argv) o) in
    match o with
    | Completed rc _ _ =>
        if (rc =? 0)%Z then (Return tt, tr')
        else (Raise (Exc (mkExc CalledProcessError
                                (called_process_error_str w argv rc))), tr')
    | Failed e => (Raise (Exc e), tr')
    end.

(** The statement [import module]. *)
Definition import_ (module : string) : M unit :=
  fun w tr =>
    let o := import_module w tr module in
    let tr' := log tr (Import module o) in
    match o with
    | None => (Return tt, tr')
    | Some e => (Raise (Exc e), tr')
    end.

(** [whisper.load_model(name)]; the model object is not used afterwards. *)
Definition whisper_load_model (name : string) : M unit :=
  fun w tr =>
    let o := load_model w tr name in
    let tr' := log tr (LoadModel name o) in
    match o with
    | None => (Return tt, tr')
    | Some e => (Raise (Exc e), tr')
    end.

(** [str.lower()] on the ASCII range, which is where the names compared
    against live. *)
Definition lower_ascii (c : ascii) : ascii :=
  let n := nat_of_ascii c in
  if ((65 <=? n) && (n <=? 90))%nat%bool then ascii_of_nat (n + 32) else c.

Fixpoint lower (s : string) : string :=
  match s with
  | EmptyString => EmptyString
  | String c s' => String (lower_ascii c) (lower s')
  end.

(** [str.strip()]: ASCII white space is tab, LF, VT, FF, CR, the four
    separators 28..31 and space. *)
Definition isspace (c : ascii) : bool :=
  let n := nat_of_ascii c in
  (((9 <=? n) && (n <=? 13)) || ((28 <=? n) && (n <=? 31)) || (n =? 32))%nat%bool.

Fixpoint lstrip (s : string) : string :=
  match s with
  | EmptyString => EmptyString
  | String c s' => if isspace c then lstrip s' else s
  end.

Fixpoint rstrip (s : string) : string :=
  match s with
  | EmptyString => EmptyString
  | String c s' =>
      match rstrip s' with
      | EmptyString => if isspace c then EmptyString else String c EmptyString
      | t => String c t
      end
  end.

Definition strip (s : string) : string := rstrip (lstrip s).

(** Lexicographic [<] on tuples of integers, as Python compares
    [sys.version_info] with [(3, 8)]: a proper prefix is smaller. *)
Fixpoint tuple_lt (a b : list nat) : bool :=
  match a, b with
  | _, [] => false
  | [], _ :: _ => true
  | x :: a', y :: b' =>
      if (x <? y)%nat then true else if (y <? x)%nat then false else tuple_lt a' b'
  end.

(** *** Running a script as [__main__] *)

(** How the interpreter ends: with an exit status (the end of the module is
    status 0, [SystemExit(n)] is status n), or by an exception nobody
    caught, for which it prints a traceback and exits with status 1. *)
Inductive termination : Type :=
| Exited (status : Z)
| Uncaught (e : exception).

Definition exit_status (t : termination) : Z :=
  match t with
  | Exited n => n
  | Uncaught _ => 1%Z
  end.

Definition run_module (body : M unit) (w : World) : termination * list event :=
  match body w [] with
  | (Return _, tr) => (Exited 0, tr)
  | (Raise (SystemExit n), tr) => (Exited n, tr)
  | (Raise (Exc e), tr) => (Uncaught e, tr)
  end.

(** *** Reading a trace *)

(** The child processes of a run, in the order they were started. *)
Fixpoint spawned (tr : list event) : list command :=
  match tr with
  | [] => []
  | Spawn c _ :: tr' => c :: spawned tr'
  | _ :: tr' => spawned tr'
  end.

Definition succeeded (o : completion) : bool :=
  match o with
  | Completed rc _ _ => (rc =? 0)%Z
  | Failed _ => false
  end.

Definition dquote : string := String (ascii_of_nat 34) EmptyString.

End Py.

Import Py.

(** ** scripts/install-faster-whisper.py *)

Module FasterWhisper.

(** [run_command(command)] *)
Definition run_command (command : string) : M (bool * string * string) :=
  try (result <- subprocess_run command ;;
       ret ((returncode result =? 0)%Z, stdout result, stderr result))
  except [Exception] => (fun e => ret (false, "", exc_str e)).

Definition verify_command : string :=
  "python -c " ++ dquote
  ++ "import faster_whisper; print('faster-whisper version:', faster_whisper.__version__)"
  ++ dquote.

(** [main()] *)
Definition main : M bool :=
  print "🚀 Installing faster-whisper for improved transcription performance..." ;;
  print "" ;;
  print "📋 Checking Python environment..." ;;
  '(success, stdout, stderr) <- run_command "python --version" ;;
  if success : bool then
    print ("✅ Python version: " ++ strip stdout) ;;
    '(success, stdout, stderr) <- run_command "pip --version" ;;
    if success : bool then
      print ("✅ Pip version: " ++ strip stdout) ;;
      print "" ;;
      print "📦 Installing faster-whisper..." ;;
      '(success, stdout, stderr) <- run_command "pip install faster-whisper" ;;
      if success : bool then
        print "✅ faster-whisper installed successfully!" ;;
        print "" ;;
        print "🔍 Verifying installation..." ;;
        '(success, stdout, stderr) <- run_command verify_command ;;
        if success : bool then
          print ("✅ Verification successful: " ++ strip stdout) ;;
          print "" ;;
          print "🎯 Performance Benefits:" ;;
          print "• 3-5x faster transcription speed" ;;
          print "• Lower memory usage" ;;
          print "• Better GPU utilization (if available)" ;;
          print "• Optimized for production use" ;;
          print "" ;;
          print "✅ Installation complete! Restart your development server to use faster-whisper." ;;
          ret true
        else
          print ("❌ Verification failed: " ++ stderr) ;;
          ret false
      else
        print ("❌ Installation failed: " ++ stderr) ;;
        print "" ;;
        print "🔄 Trying alternative installation..." ;;
        '(success, stdout, stderr) <- run_command "pip install --upgrade faster-whisper" ;;
        if success : bool then
          print "✅ Alternative installation successful!" ;;
          ret true
        else
          print ("❌ Alternative installation also failed: " ++ stderr) ;;
          print "" ;;
          print "💡 Manual installation steps:" ;;
          print "1. Open command prompt as administrator" ;;
          print "2. Run: pip install faster-whisper" ;;
          print "3. If that fails, try: pip install --user faster-whisper" ;;
          print "4. Restart your development server" ;;
          ret false
    else
      print "❌ Pip not found" ;;
      ret false
  else
    print "❌ Python not found in PATH" ;;
    ret false.

(** The [if __name__ == "__main__":] block. *)
Definition script : M unit :=
  success <- main ;;
  sys_exit (if success : bool then 0 else 1)%Z.

Definition run (w : World) : termination * list event := run_module script w.

End FasterWhisper.

(** ** scripts/install-whisper-deps.py *)

Module WhisperDeps.

(** [check_python_version()] *)
Definition check_python_version : M unit :=
  vi <- ask version_info ;;
  when (tuple_lt vi [3; 8])
       (print "Error: Python 3.8 or higher is required" ;;
        sys_exit 1) ;;
  v <- ask sys_version ;;
  print ("Python version: " ++ v).

Definition pip_install (exe package : string) : list string :=
  [exe; "-m"; "pip"; "install"; package].

(** [install_package(package)] *)
Definition install_package (package : string) : M bool :=
  try (exe <- ask sys_executable ;;
       check_call (pip_install exe package) ;;
       ret true)
  except [CalledProcessError] => (fun _ =>
       print ("Failed to install " ++ package) ;;
       ret false).

(** [install_ffmpeg()] *)
Definition install_ffmpeg : M bool :=
  name <- ask platform_system ;;
  let system := lower name in
  if system =? "windows" then
    print "Please install ffmpeg manually:" ;;
    print "Option 1: Using Chocolatey: choco install ffmpeg" ;;
    print "Option 2: Using Scoop: scoop install ffmpeg" ;;
    print "Option 3: Download from https://ffmpeg.org/download.html" ;;
    ret false
  else if system =? "darwin" then
    try (check_call ["which"; "brew"] ;;
         check_call ["brew"; "install"; "ffmpeg"] ;;
         ret true)
    except [CalledProcessError] => (fun _ =>
         print "Please install Homebrew (https://brew.sh/) and then run: brew install ffmpeg" ;;
         ret false)
  else if system =? "linux" then
    debian <- ask (fun w => path_exists w "/etc/debian_version") ;;
    if debian : bool then
      try (check_call ["sudo"; "apt"; "update"] ;;
           check_call ["sudo"; "apt"; "install"; "-y"; "ffmpeg"] ;;
           ret true)
      except [CalledProcessError] => (fun _ =>
           print "Failed to install ffmpeg. Please install it manually: sudo apt install ffmpeg" ;;
           ret false)
    else
      arch <- ask (fun w => path_exists w "/etc/arch-release") ;;
      if arch : bool then
        try (check_call ["sudo"; "pacman"; "-S"; "--noconfirm"; "ffmpeg"] ;;
             ret true)
        except [CalledProcessError] => (fun _ =>
             print "Failed to install ffmpeg. Please install it manually: sudo pacman -S ffmpeg" ;;
             ret false)
      else
        print "Please install ffmpeg manually for your Linux distribution" ;;
        ret false
  else
    print ("Unsupported platform: " ++ system) ;;
    print "Please install ffmpeg manually" ;;
    ret false.

(** [check_ffmpeg()] *)
Definition check_ffmpeg : M bool :=
  try (check_call ["ffmpeg"; "-version"] ;;
       print "ffmpeg is already installed" ;;
       ret true)
  except [CalledProcessError; FileNotFoundError] => (fun _ =>
       print "ffmpeg is not installed" ;;
       ret false).

Definition dependencies : list string :=
  [ "torch";
    "numpy";
    "tqdm";
    "more-itertools";
    "transformers>=4.19.0";
    "ffmpeg-python";
    "setuptools-rust";
    "openai-whisper" ].

(** [install_whisper_dependencies()] *)
Definition install_whisper_dependencies : M unit :=
  for_each dependencies (fun package =>
    print ("Installing " ++ package ++ "...") ;;
    ok <- install_package package ;;
    when (negb ok) (print ("Warning: Failed to install " ++ package))) ;;
  try (import_ "tiktoken" ;;
       print "tiktoken is already installed")
  except [ImportError] => (fun _ =>
       print "Installing tiktoken..." ;;
       ok <- install_package "tiktoken" ;;
       when (negb ok) (print "Warning: Failed to install tiktoken")).

(** [test_whisper_installation()] *)
Definition test_whisper_installation : M bool :=
  try_except
    (import_ "whisper" ;;
     print "Whisper is installed correctly" ;;
     print "Testing model loading (this might take a while the first time)..." ;;
     whisper_load_model "base.en" ;;
     print "Model loaded successfully" ;;
     ret true)
    [ ([ImportError], fun _ =>
         print "Error: Failed to import whisper" ;;
         ret false);
      ([Exception], fun e =>
         print ("Error testing Whisper: " ++ exc_str e) ;;
         ret false) ].

(** [main()] *)
Definition main : M unit :=
  args <- ask parse_args ;;
  print "Checking Python version..." ;;
  check_python_version ;;
  when (negb (skip_ffmpeg args))
       (print "Checking ffmpeg..." ;;
        present <- check_ffmpeg ;;
        when (negb present)
             (print "Installing ffmpeg..." ;;
              _ <- install_ffmpeg ;;
              ret tt)) ;;
  print "Installing Whisper dependencies..." ;;
  install_whisper_dependencies ;;
  when (test args)
       (print "Testing Whisper installation..." ;;
        _ <- test_whisper_installation ;;
        ret tt) ;;
  print "Done!".

(** The [if __name__ == "__main__":] block. *)
Definition script : M unit := main.

Definition run (w : World) : termination * list event := run_module script w.

End WhisperDeps.

(** ** Reading runs *)

Module Runs.

Fixpoint argv_eqb (a b : list string) : bool :=
  match a, b with
  | [], [] => true
  | x :: a', y :: b' => (x =? y)%string && argv_eqb a' b'
  | _, _ => false
  end.

Definition command_eqb (c d : command) : bool :=
  match c, d with
  | Shell a, Shell b => (a =? b)%string
  | Argv a, Argv b => argv_eqb a b
  | _, _ => false
  end.

(** The host's answers to command [c] during the run, in order. *)
Fixpoint answers (c : command) (tr : list event) : list completion :=
  match tr with
  | [] => []
  | Spawn c' o :: tr' =>
      if command_eqb c c' then o :: answers c tr' else answers c tr'
  | _ :: tr' => answers c tr'
  end.

(** A command was issued during the run and came back as a failure
    (non-zero return code, or the call raised), respectively a success. *)
Definition failed_in (tr : list event) (c : command) : Prop :=
  existsb (fun o => negb (succeeded o)) (answers c tr) = true.

Definition succeeded_in (tr : list event) (c : command) : Prop :=
  existsb succeeded (answers c tr) = true.

(** A line was printed during the run. *)
Definition printed (tr : list event) (text : string) : bool :=
  existsb (fun ev => match ev with
                     | Print t => (t =? text)%string
                     | _ => false
                     end) tr.

(** The two package-installation invocations of install-faster-whisper.py. *)
Definition primary_install : command := Shell "pip install faster-whisper".
Definition fallback_install : command :=
  Shell "pip install --upgrade faster-whisper".

(** How often a command was started. *)
Definition times (c : command) (tr : list event) : nat :=
  List.length (filter (command_eqb c) (spawned tr)).

(** The invocations [install_ffmpeg] can make, on any platform. *)
Definition ffmpeg_install_commands : list command :=
  [ Argv ["which"; "brew"];
    Argv ["brew"; "install"; "ffmpeg"];
    Argv ["sudo"; "apt"; "update"];
    Argv ["sudo"; "apt"; "install"; "-y"; "ffmpeg"];
    Argv ["sudo"; "pacman"; "-S"; "--noconfirm"; "ffmpeg"] ].

Definition is_ffmpeg_install (c : command) : bool :=
  existsb (command_eqb c) ffmpeg_install_commands.

(** The binary-install invocations of a run, in order. *)
Definition ffmpeg_installs (tr : list event) : list command :=
  filter is_ffmpeg_install (spawned tr).

Definition ffmpeg_check : command := Argv ["ffmpeg"; "-version"].
Definition apt_update : command := Argv ["sudo"; "apt"; "update"].
Definition apt_install : command :=
  Argv ["sudo"; "apt"; "install"; "-y"; "ffmpeg"].

(** A line starting with "Error" was printed. *)
Definition error_logged (tr : list event) : bool :=
  existsb (fun ev => match ev with
                     | Print t => String.prefix "Error" t
                     | _ => false
                     end) tr.

(** [pip install package] through the running interpreter. *)
Definition pip (w : World) (package : string) : command :=
  Argv (WhisperDeps.pip_install (sys_executable w) package).

(** The ffmpeg probe came back in a way that makes [check_ffmpeg] report
    the binary as not installed. *)
Definition reports_absent (o : completion) : bool :=
  match o with
  | Completed rc _ _ => negb (rc =? 0)%Z
  | Failed e => isinstance e [CalledProcessError; FileNotFoundError]
  end.

Definition absent_in (tr : list event) : Prop :=
  existsb reports_absent (answers ffmpeg_check tr) = true.

(** The host fails only in the ways install-whisper-deps.py has a handler
    for, or with an exception in [X]: a child that cannot be run to a zero
    status surfaces as CalledProcessError (for the ffmpeg probe also as
    FileNotFoundError), and a failing [import tiktoken] as ImportError. *)
Definition failures_within (w : World) (X : exception -> Prop) : Prop :=
  (forall tr argv e,
      popen w tr (Argv argv) = Failed e ->
      isinstance e [CalledProcessError] = true
      \/ (argv = ["ffmpeg"; "-version"]
          /\ isinstance e [FileNotFoundError] = true)
      \/ X e)
  /\ (forall tr e,
         import_module w tr "tiktoken" = Some e ->
         isinstance e [ImportError] = true \/ X e).

Definition handled_failures_only (w : World) : Prop :=
  failures_within w (fun _ => False).

(** Events of the dependency and verification steps: the only children are
    pip installations. *)
Definition pip_event (w : World) (ev : event) : Prop :=
  match ev with
  | Spawn c _ => exists package, c = pip w package
  | _ => True
  end.

(** Events of [install_ffmpeg]: the only children are the package-manager
    invocations. *)
Definition install_event (ev : event) : Prop :=
  match ev with
  | Spawn c _ => is_ffmpeg_install c = true
  | _ => True
  end.

(** [may w E X c]: started in any state, [c] appends only events in [E] to
    the trace, and ends by returning or by raising an exception in [X];
    it never raises SystemExit. *)
Definition may {A} (w : World) (E : event -> Prop) (X : exception -> Prop)
           (c : M A) : Prop :=
  forall tr, exists r d,
    c w tr = (r, (tr ++ d)%list)
    /\ Forall E d
    /\ match r with
       | Return _ => True
       | Raise (SystemExit _) => False
       | Raise (Exc e) => X e
       end.

Definition python_supported (w : World) : Prop :=
  tuple_lt (version_info w) [3; 8] = false.

End Runs.

(** The steps of [WhisperDeps.main], named. *)
Module Phases.

Definition ffmpeg_phase (args : Namespace) : M unit :=
  when (negb (skip_ffmpeg args))
       (print "Checking ffmpeg..." ;;
        present <- WhisperDeps.check_ffmpeg ;;
        when (negb present)
             (print "Installing ffmpeg..." ;;
              _ <- WhisperDeps.install_ffmpeg ;;
              ret tt)).

Definition test_phase (args : Namespace) : M unit :=
  when (test args)
       (print "Testing Whisper installation..." ;;
        _ <- WhisperDeps.test_whisper_installation ;;
        ret tt).

(** Everything after the ffmpeg step. *)
Definition rest (args : Namespace) : M unit :=
  print "Installing Whisper dependencies..." ;;
  WhisperDeps.install_whisper_dependencies ;;
  test_phase args ;;
  print "Done!".

(** The trace up to the ffmpeg step on a supported interpreter. *)
Definition head (w : World) : list event :=
  [ Print "Checking Python version...";
    Print ("Python version: " ++ sys_version w) ].

End Phases.

(** ** The platform table the specification describes

    install_ffmpeg is an if/elif chain; the specification describes it as a
    classification followed by a per-category action.  [classify] and
    [perform] follow the specification's words and are compared with the
    code of [WhisperDeps.install_ffmpeg] below. *)

Module Platform.

Inductive category : Type :=
| windows
| macos
| linux_debian
| linux_arch
| linux_other
| unsupported.

(** [system] is the OS name already lowercased. *)
Definition classify (system : string) (debian_marker arch_marker : bool)
  : category :=
  if system =? "windows" then windows
  else if system =? "darwin" then macos
  else if system =? "linux" then
         if debian_marker then linux_debian
         else if arch_marker then linux_arch
         else linux_other
  else unsupported.

(** The fixed package-manager invocations of a category, in order; none
    where there is no automated path. *)
Definition invocations (c : category) : list (list string) :=
  match c with
  | macos => [ ["which"; "brew"]; ["brew"; "install"; "ffmpeg"] ]
  | linux_debian =>
      [ ["sudo"; "apt"; "update"];
        ["sudo"; "apt"; "install"; "-y"; "ffmpeg"] ]
  | linux_arch => [ ["sudo"; "pacman"; "-S"; "--noconfirm"; "ffmpeg"] ]
  | windows | linux_other | unsupported => []
  end.

(** The guidance printed when the category has no automated path or its
    invocation fails.  Only the first line of [unsupported] echoes the
    (lowercased) name. *)
Definition guidance (c : category) (system : string) : list string :=
  match c with
  | windows =>
      [ "Please install ffmpeg manually:";
        "Option 1: Using Chocolatey: choco install ffmpeg";
        "Option 2: Using Scoop: scoop install ffmpeg";
        "Option 3: Download from https://ffmpeg.org/download.html" ]
  | macos =>
      [ "Please install Homebrew (https://brew.sh/) and then run: brew install ffmpeg" ]
  | linux_debian =>
      [ "Failed to install ffmpeg. Please install it manually: sudo apt install ffmpeg" ]
  | linux_arch =>
      [ "Failed to install ffmpeg. Please install it manually: sudo pacman -S ffmpeg" ]
  | linux_other =>
      [ "Please install ffmpeg manually for your Linux distribution" ]
  | unsupported =>
      [ "Unsupported platform: " ++ system;
        "Please install ffmpeg manually" ]
  end.

Definition perform (c : category) (system : string) : M bool :=
  match invocations c with
  | [] => for_each (guidance c system) print ;; ret false
  | cmds =>
      try (for_each cmds check_call ;; ret true)
      except [CalledProcessError] => (fun _ =>
          for_each (guidance c system) print ;; ret false)
  end.

End Platform.

Import Runs.

(** ** Concrete hosts *)

Module Hosts.

Definition exit_with (rc : Z) : completion := Completed rc "" "".

(** A host described by what each command answers, whatever happened
    before. *)
Definition host (system : string) (markers : list string) (version : list nat)
           (flags : Namespace) (answer : command -> completion)
           (imports : string -> option exception) : World :=
  {| platform_system := system;
     path_exists := fun p => existsb (String.eqb p) markers;
     version_info := version;
     sys_version := "3.x";
     sys_executable := "/usr/bin/python3";
     parse_args := flags;
     popen := fun _ c => answer c;
     import_module := fun _ m => imports m;
     load_model := fun _ _ => None;
     called_process_error_str := fun _ _ => "non-zero exit status" |}.

Definition default_flags : Namespace := mkNamespace false false.

(** Nothing is installed: every command ends with the shell's status 127. *)
Definition bare : World :=
  host "Linux" [] [2; 7; 18] default_flags (fun _ => exit_with 127)
       (fun _ => None).

(** python and pip answer; the primary install fails, the upgrade variant
    works. *)
Definition needs_upgrade : World :=
  host "Windows" [] [3; 11; 4] default_flags
       (fun c => if command_eqb c primary_install then Completed 1 "" "ERROR: conflict"
                 else Completed 0 "ok" "")
       (fun _ => None).

(** The install works but the installed library does not import. *)
Definition broken_library : World :=
  host "Windows" [] [3; 11; 4] default_flags
       (fun c => if command_eqb c (Shell FasterWhisper.verify_command)
                 then Completed 1 "" "ModuleNotFoundError: No module named 'ctranslate2'"
                 else Completed 0 "ok" "")
       (fun _ => None).

(** Everything is there already and every command succeeds. *)
Definition provisioned : World :=
  host "Linux" ["/etc/debian_version"] [3; 11; 4] default_flags
       (fun _ => exit_with 0) (fun _ => None).

(** A Debian system without ffmpeg on which apt works. *)
Definition fresh_debian : World :=
  host "Linux" ["/etc/debian_version"] [3; 11; 4] default_flags
       (fun c => if command_eqb c ffmpeg_check
                 then Failed (mkExc FileNotFoundError
                                    "[Errno 2] No such file or directory: 'ffmpeg'")
                 else exit_with 0)
       (fun _ => None).

(** A supported interpreter on a Debian system where every child process
    ends with status 1 and no optional module can be imported; the run was
    started with --test. *)
Definition all_fail : World :=
  host "Linux" ["/etc/debian_version"] [3; 11; 4] (mkNamespace false true)
       (fun _ => exit_with 1)
       (fun _ => Some (mkExc ModuleNotFoundError "No module named 'x'")).


(** A Debian container running as root: neither ffmpeg nor sudo is on the
    PATH, everything else works. *)
Definition debian_without_sudo : World :=
  host "Linux" ["/etc/debian_version"] [3; 11; 4] default_flags
       (fun c => match c with
                 | Argv ("ffmpeg" :: _) =>
                     Failed (mkExc FileNotFoundError
                                   "[Errno 2] No such file or directory: 'ffmpeg'")
                 | Argv ("sudo" :: _) =>
                     Failed (mkExc FileNotFoundError
                                   "[Errno 2] No such file or directory: 'sudo'")
                 | _ => exit_with 0
                 end)
       (fun _ => None).

End Hosts.

(** ** Further observations on runs *)

(** Command [c] was started during the run and one of its answers was a
    success. *)
Definition ok_in (tr : list event) (c : command) : bool :=
  existsb succeeded (answers c tr).

(** The import check of install-faster-whisper.py. *)
Definition verify : command := Shell FasterWhisper.verify_command.

(** The answers to [import module] during the run, in order. *)
Fixpoint imports (module : string) (tr : list event) : list (option exception) :=
  match tr with
  | [] => []
  | Import m o :: tr' =>
      if (module =? m)%string then o :: imports module tr' else imports module tr'
  | _ :: tr' => imports module tr'
  end.

(** The answers to [whisper.load_model] during the run, in order. *)
Fixpoint loads (tr : list event) : list (option exception) :=
  match tr with
  | [] => []
  | LoadModel _ o :: tr' => o :: loads tr'
  | _ :: tr' => loads tr'
  end.

Definition is_none {A} (o : option A) : bool :=
  match o with None => true | Some _ => false end.

Definition is_print (ev : event) : bool :=
  match ev with Print _ => true | _ => false end.

(** The commands of [plan] that get started when each one is started only
    after the previous one succeeded in [tr]. *)
Fixpoint started (plan : list command) (tr : list event) : list command :=
  match plan with
  | [] => []
  | c :: plan' => c :: (if ok_in tr c then started plan' tr else [])
  end.

(** The call returned True. *)
Definition returned_true (r : outcome bool) : bool :=
  match r with Return b => b | Raise _ => false end.

(** The platform category of a host. *)
Definition category_of (w : World) : Platform.category :=
  Platform.classify (lower (platform_system w))
                    (path_exists w "/etc/debian_version")
                    (path_exists w "/etc/arch-release").

(** An exception the host raises that no handler of install-whisper-deps.py
    matches at the place where it is raised. *)
Definition escapes (w : World) (e : exception) : Prop :=
  (exists tr argv,
      popen w tr (Argv argv) = Failed e
      /\ isinstance e [CalledProcessError] = false
      /\ (argv = ["ffmpeg"; "-version"] ->
          isinstance e [FileNotFoundError] = false))
  \/ (exists tr,
         import_module w tr "tiktoken" = Some e
         /\ isinstance e [ImportError] = false).

(** Every answer the host gave during the run. *)
Fixpoint all_answers (tr : list event) : list completion :=
  match tr with
  | [] => []
  | Spawn _ o :: tr' => o :: all_answers tr'
  | _ :: tr' => all_answers tr'
  end.

(** A line starting with the cross mark was printed. *)
Definition cross_printed (tr : list event) : bool :=
  existsb (fun ev => match ev with
                     | Print t => String.prefix "❌" t
                     | _ => false
                     end) tr.

(** Events of the ffmpeg step: prints, the probe and the package-manager
    invocations; nothing is imported. *)
Definition ffmpeg_step_event (ev : event) : Prop :=
  match ev with
  | Print _ => True
  | Spawn c _ => c = ffmpeg_check \/ is_ffmpeg_install c = true
  | _ => False
  end.

(** Events of everything before the smoke test. *)
Definition provisioning_event (w : World) (ev : event) : Prop :=
  match ev with
  | Print _ => True
  | Spawn _ _ => True
  | Import m _ => m = "tiktoken"
  | LoadModel _ _ => False
  end.

(** The pip installations of install_whisper_dependencies, in order. *)
Definition pip_plan (w : World) : list command :=
  (map (pip w) WhisperDeps.dependencies ++ [pip w "tiktoken"])%list.

(** Events of the package loop: prints and pip installations only. *)
Definition quiet_event (w : World) (ev : event) : Prop :=
  match ev with
  | Print _ => True
  | Spawn c _ => exists p, c = pip w p
  | _ => False
  end.

(** A command of the ffmpeg step: the probe or a package-manager
    invocation. *)
Definition ffmpeg_command (c : command) : Prop :=
  c = ffmpeg_check \/ is_ffmpeg_install c = true.

(** The package-manager invocations of the host's category, as commands. *)
Definition plan_of (w : World) : list command :=
  map Argv (Platform.invocations (category_of w)).

(** Both lines the script prints for a package whose installation failed
    are in the trace. *)
Definition failure_reported (tr : list event) (package : string) : Prop :=
  printed tr ("Failed to install " ++ package) = true
  /\ printed tr ("Warning: Failed to install " ++ package) = true.

(** ** The definitions at work *)

Example version_comparison :
  map (fun v => tuple_lt v [3; 8])
      [ [2; 7; 18]; [3; 7; 17]; [3; 8; 0]; [3; 12; 1]; [3] ]
  = [ true; true; false; false; true ].
Proof. reflexivity. Qed.

Example strip_version_line :
  strip ("  Python 3.11.4" ++ String (ascii_of_nat 10) "") = "Python 3.11.4".
Proof. reflexivity. Qed.

Example except_clause_matching :
  isinstance (mkExc ModuleNotFoundError "") [ImportError] = true
  /\ isinstance (mkExc FileNotFoundError "") [CalledProcessError] = false
  /\ isinstance (mkExc FileNotFoundError "")
                [CalledProcessError; FileNotFoundError] = true.
Proof. repeat split; reflexivity. Qed.

Example classification_table :
  map (fun name => Platform.classify (lower name) false true)
      [ "Windows"; "Darwin"; "Linux"; "FreeBSD"; "" ]
  = [ Platform.windows; Platform.macos; Platform.linux_arch;
      Platform.unsupported; Platform.unsupported ].
Proof. reflexivity. Qed.

Example fresh_debian_run :
  fst (WhisperDeps.run Hosts.fresh_debian) = Exited 0
  /\ spawned (snd (WhisperDeps.run Hosts.fresh_debian))
     = (ffmpeg_check :: apt_update :: apt_install
          :: map (pip Hosts.fresh_debian) WhisperDeps.dependencies)%list.
Proof. split; vm_compute; reflexivity. Qed.

Example needs_upgrade_run :
  spawned (snd (FasterWhisper.run Hosts.needs_upgrade))
  = [ Shell "python --version"; Shell "pip --version";
      primary_install; fallback_install ].
Proof. vm_compute. reflexivity. Qed.

(** ** Basic facts about the runtime model *)

Lemma isinstance_Exception (e : exception) : isinstance e [Exception] = true.
Proof. destruct e as [c s]; destruct c; reflexivity. Qed.

Lemma spawned_app (a b : list event) :
  spawned (a ++ b) = (spawned a ++ spawned b)%list.
Proof.
  induction a as [|ev a IH]; simpl; [reflexivity|].
  destruct ev; simpl; rewrite IH; reflexivity.
Qed.

Lemma bind_eq {A B} (c : M A) (k : A -> M B) w tr :
  bind c k w tr =
  match c w tr with
  | (Return a, tr') => k a w tr'
  | (Raise r, tr') => (Raise r, tr')
  end.
Proof. reflexivity. Qed.


(** *** Symbolic execution

    The scripts are executed by unfolding the monad and splitting the
    host's answers by cases as they are asked for; the equations below
    step over one statement where a lemma about a component is used
    instead. *)

Lemma bind_assoc {A B C} (c : M A) (k : A -> M B) (k' : B -> M C) w tr :
  bind (bind c k) k' w tr = bind c (fun a => bind (k a) k') w tr.
Proof.
  unfold bind. destruct (c w tr) as [[a|r] tr']; reflexivity.
Qed.


Lemma bind_ask {A B} (f : World -> A) (k : A -> M B) w tr :
  bind (ask f) k w tr = k (f w) w tr.
Proof. reflexivity. Qed.

Lemma bind_print {B} (text : string) (k : unit -> M B) w tr :
  bind (print text) k w tr = k tt w (log tr (Print text)).
Proof. reflexivity. Qed.

Lemma spawned_log_print tr text : spawned (log tr (Print text)) = spawned tr.
Proof. unfold log. rewrite spawned_app. simpl. apply app_nil_r. Qed.

Lemma spawned_log_import tr m o : spawned (log tr (Import m o)) = spawned tr.
Proof. unfold log. rewrite spawned_app. simpl. apply app_nil_r. Qed.

Lemma spawned_log_model tr m o : spawned (log tr (LoadModel m o)) = spawned tr.
Proof. unfold log. rewrite spawned_app. simpl. apply app_nil_r. Qed.

Lemma spawned_log_spawn tr c o :
  spawned (log tr (Spawn c o)) = (spawned tr ++ [c])%list.
Proof. unfold log. rewrite spawned_app. reflexivity. Qed.

Create Rewrite HintDb trace.
#[export] Hint Rewrite spawned_log_print spawned_log_import spawned_log_model
  spawned_log_spawn : trace.

(** Case analysis on the host's answer to the next child process. *)
Ltac next_answer :=
  match goal with
  | |- context [popen ?w ?tr ?c] =>
      let E := fresh "E" in
      destruct (popen w tr c) as [[|?|?] ? ?|?] eqn:E
  end.

Ltac fw_eval :=
  lazy beta iota zeta
       delta [FasterWhisper.run run_module FasterWhisper.script
              FasterWhisper.main FasterWhisper.run_command
              bind print ret ask raise sys_exit try_except select_clause
              subprocess_run when
              returncode stdout stderr Z.eqb fst snd].

Ltac wd_lazy :=
  lazy beta iota zeta
       delta [WhisperDeps.run run_module WhisperDeps.script WhisperDeps.main
              WhisperDeps.check_python_version
              bind print ret ask raise sys_exit when fst snd].

Ltac fw_run :=
  fw_eval;
  repeat (next_answer; try rewrite isinstance_Exception; fw_eval);
  repeat match goal with H : popen _ _ _ = _ |- _ => clear H end.

(** *** Rules for [may] *)

Section MayRules.

Variable w : World.
Variable E : event -> Prop.

Lemma may_ret {A} X (a : A) : may w E X (ret a).
Proof.
  intros tr. exists (Return a), []. rewrite app_nil_r. simpl. auto.
Qed.

Lemma may_print X text : E (Print text) -> may w E X (print text).
Proof.
  intros HE tr. exists (Return tt), [Print text]. simpl. auto.
Qed.

Lemma may_bind {A B} X (c : M A) (k : A -> M B) :
  may w E X c -> (forall a, may w E X (k a)) -> may w E X (bind c k).
Proof.
  intros Hc Hk tr. unfold bind.
  destruct (Hc tr) as (r & d & -> & Hd & Hr).
  destruct r as [a|x].
  - destruct (Hk a (tr ++ d)%list) as (r' & d' & -> & Hd' & Hr').
    exists r', (d ++ d')%list. rewrite app_assoc.
    split; [reflexivity|]. split; [apply Forall_app; auto|exact Hr'].
  - exists (Raise x), d. auto.
Qed.

Lemma may_ask_bind {A B} X (f : World -> A) (k : A -> M B) :
  may w E X (k (f w)) -> may w E X (bind (ask f) k).
Proof. intros H tr. exact (H tr). Qed.

Lemma may_when X (cond : bool) (body : M unit) :
  may w E X body -> may w E X (when cond body).
Proof. destruct cond; simpl; auto using may_ret. Qed.

Lemma may_if {A} X (cond : bool) (c1 c2 : M A) :
  may w E X c1 -> may w E X c2 -> may w E X (if cond then c1 else c2).
Proof. destruct cond; auto. Qed.

Lemma may_for_each {A} X (xs : list A) (body : A -> M unit) :
  (forall x, may w E X (body x)) -> may w E X (for_each xs body).
Proof.
  intros Hb. induction xs as [|x xs IH]; simpl.
  - apply may_ret.
  - apply may_bind; auto.
Qed.

Lemma may_check_call X (argv : list string) :
  (forall o, E (Spawn (Argv argv) o)) ->
  (forall text, X (mkExc CalledProcessError text)) ->
  (forall tr e, popen w tr (Argv argv) = Failed e -> X e) ->
  may w E X (check_call argv).
Proof.
  intros HE Hcpe Hfail tr. unfold check_call, log.
  destruct (popen w tr (Argv argv)) as [rc out err|e] eqn:Ho.
  - destruct (rc =? 0)%Z; eexists _, [_];
      (split; [reflexivity|]); split; auto; apply Hcpe.
  - eexists _, [_]; (split; [reflexivity|]); split; auto.
    apply (Hfail tr). exact Ho.
Qed.

Lemma may_import X (module : string) :
  (forall o, E (Import module o)) ->
  (forall tr e, import_module w tr module = Some e -> X e) ->
  may w E X (import_ module).
Proof.
  intros HE Hfail tr. unfold import_, log.
  destruct (import_module w tr module) as [e|] eqn:Ho;
    eexists _, [_]; (split; [reflexivity|]); split; auto.
  apply (Hfail tr). exact Ho.
Qed.

Lemma may_load_model X (name : string) :
  (forall o, E (LoadModel name o)) ->
  (forall tr e, load_model w tr name = Some e -> X e) ->
  may w E X (whisper_load_model name).
Proof.
  intros HE Hfail tr. unfold whisper_load_model, log.
  destruct (load_model w tr name) as [e|] eqn:Ho;
    eexists _, [_]; (split; [reflexivity|]); split; auto.
  apply (Hfail tr). exact Ho.
Qed.

(** [try]/[except]: the body may raise anything in [X']; each such
    exception either selects a handler, which is then run, or escapes and
    must be in [X]. *)
Lemma may_try {A} X X' (body : M A) clauses :
  may w E X' body ->
  (forall e, X' e ->
             match select_clause e clauses with
             | Some h => may w E X h
             | None => X e
             end) ->
  may w E X (try_except body clauses).
Proof.
  intros Hb Hh tr. unfold try_except.
  destruct (Hb tr) as (r & d & -> & Hd & Hr).
  destruct r as [a|[n|e]].
  - exists (Return a), d. auto.
  - destruct Hr.
  - specialize (Hh e Hr). destruct (select_clause e clauses) as [h|].
    + destruct (Hh (tr ++ d)%list) as (r' & d' & -> & Hd' & Hr').
      exists r', (d ++ d')%list. rewrite app_assoc.
      split; [reflexivity|]. split; [apply Forall_app; auto|exact Hr'].
    + exists (Raise (Exc e)), d. auto.
Qed.

(** The common case of one clause. *)
Lemma may_try1 {A} X (body : M A) classes (handler : exception -> M A) :
  may w E (fun e => isinstance e classes = true \/ X e) body ->
  (forall e, may w E X (handler e)) ->
  may w E X (try_except body [(classes, handler)]).
Proof.
  intros Hb Hh. apply may_try with (1 := Hb).
  intros e He. unfold select_clause.
  destruct (isinstance e classes) eqn:Hi.
  - apply Hh.
  - destruct He as [He|He]; [discriminate|exact He].
Qed.

End MayRules.

Lemma may_weaken {A} w (E E' : event -> Prop) (X X' : exception -> Prop)
      (c : M A) :
  (forall ev, E ev -> E' ev) -> (forall e, X e -> X' e) ->
  may w E X c -> may w E' X' c.
Proof.
  intros HE HX Hc tr. destruct (Hc tr) as (r & d & Heq & Hd & Hr).
  exists r, d. split; [exact Heq|]. split.
  - eapply Forall_impl; eauto.
  - destruct r as [a|[n|e]]; auto.
Qed.

(** *** Reading traces piecewise *)

Lemma argv_eqb_eq (a b : list string) : argv_eqb a b = true -> a = b.
Proof.
  revert b. induction a as [|x a IH]; destruct b as [|y b]; simpl;
    try discriminate; [reflexivity|].
  intros H. apply andb_true_iff in H. destruct H as [Hxy Hab].
  apply String.eqb_eq in Hxy. rewrite (IH _ Hab), Hxy. reflexivity.
Qed.

Lemma command_eqb_eq (c d : command) : command_eqb c d = true -> c = d.
Proof.
  destruct c as [a|a], d as [b|b]; simpl; try discriminate; intros H.
  - apply String.eqb_eq in H. rewrite H. reflexivity.
  - rewrite (argv_eqb_eq _ _ H). reflexivity.
Qed.

Lemma answers_app (c : command) (a b : list event) :
  answers c (a ++ b) = (answers c a ++ answers c b)%list.
Proof.
  induction a as [|ev a IH]; simpl; [reflexivity|].
  destruct ev; auto. destruct (command_eqb c cmd); simpl; rewrite IH; reflexivity.
Qed.

Lemma ffmpeg_installs_app (a b : list event) :
  ffmpeg_installs (a ++ b) = (ffmpeg_installs a ++ ffmpeg_installs b)%list.
Proof. unfold ffmpeg_installs. rewrite spawned_app. apply filter_app. Qed.

Lemma printed_app (a b : list event) (text : string) :
  printed (a ++ b) text = printed a text || printed b text.
Proof. unfold printed. apply existsb_app. Qed.

(** A pip invocation is none of the commands of the ffmpeg step. *)
Lemma pip_is_not_ffmpeg_install (w : World) (package : string) :
  is_ffmpeg_install (pip w package) = false.
Proof.
  unfold is_ffmpeg_install, pip, WhisperDeps.pip_install. cbn.
  repeat match goal with
         | |- context [String.eqb (sys_executable w) ?s] =>
             destruct (String.eqb (sys_executable w) s)
         end; reflexivity.
Qed.

Lemma pip_events_no_installs (w : World) (d : list event) :
  Forall (pip_event w) d -> ffmpeg_installs d = [].
Proof.
  unfold ffmpeg_installs.
  induction 1 as [|ev d Hev _ IH]; [reflexivity|].
  destruct ev; simpl; auto.
  destruct Hev as (package & ->).
  rewrite pip_is_not_ffmpeg_install. exact IH.
Qed.

Lemma pip_events_no_answers (w : World) (c : command) (d : list event) :
  (forall package, command_eqb c (pip w package) = false) ->
  Forall (pip_event w) d -> answers c d = [].
Proof.
  intros Hc. induction 1 as [|ev d Hev _ IH]; [reflexivity|].
  destruct ev; simpl; auto.
  destruct Hev as (package & ->). rewrite Hc. exact IH.
Qed.

Lemma not_pip_2 (w : World) (a b : string) (package : string) :
  command_eqb (Argv [a; b]) (pip w package) = false.
Proof.
  unfold pip, WhisperDeps.pip_install. cbn [command_eqb argv_eqb].
  match goal with
  | |- context [String.eqb ?x (sys_executable w)] =>
      destruct (String.eqb x (sys_executable w))
  end; [|reflexivity].
  cbn [andb].
  match goal with
  | |- context [String.eqb ?x "-m"] => destruct (String.eqb x "-m")
  end; reflexivity.
Qed.

Lemma not_pip_sudo (w : World) (rest : list string) (package : string) :
  command_eqb (Argv ("sudo" :: "apt" :: rest)) (pip w package) = false.
Proof.
  unfold pip, WhisperDeps.pip_install. cbn [command_eqb argv_eqb].
  match goal with
  | |- context [String.eqb ?x (sys_executable w)] =>
      destruct (String.eqb x (sys_executable w))
  end; [|reflexivity].
  reflexivity.
Qed.

(** The package-manager invocations never include the ffmpeg probe. *)
Lemma install_events_no_probe (d : list event) :
  Forall install_event d -> answers ffmpeg_check d = [].
Proof.
  induction 1 as [|ev d Hev _ IH]; [reflexivity|].
  destruct ev; cbn [answers]; auto.
  destruct (command_eqb ffmpeg_check cmd) eqn:Hc; [|exact IH].
  apply command_eqb_eq in Hc. subst cmd. discriminate Hev.
Qed.

Lemma install_events_installs (d : list event) :
  Forall install_event d -> ffmpeg_installs d = spawned d.
Proof.
  unfold ffmpeg_installs.
  induction 1 as [|ev d Hev _ IH]; [reflexivity|].
  destruct ev; simpl; auto.
  simpl in Hev. rewrite Hev, IH. reflexivity.
Qed.

(** *** Symbolic execution of install-whisper-deps.py *)

Ltac wd_eval :=
  lazy beta iota zeta
       delta [bind print ret ask raise sys_exit when for_each try_except
              select_clause check_call import_ whisper_load_model Z.eqb
              fst snd].

Ltac wd_split :=
  first
    [ next_answer
    | match goal with
      | |- context [import_module ?w ?tr ?m] =>
          let E := fresh "E" in
          destruct (import_module w tr m) as [?|] eqn:E
      end
    | match goal with
      | |- context [load_model ?w ?tr ?m] =>
          let E := fresh "E" in
          destruct (load_model w tr m) as [?|] eqn:E
      end
    | rewrite isinstance_Exception
    | match goal with
      | |- context [isinstance (mkExc CalledProcessError ?t) ?cs] =>
          change (isinstance (mkExc CalledProcessError t) cs) with true
      end
    | match goal with
      | |- context [isinstance ?e ?cs] =>
          let H := fresh "Hi" in destruct (isinstance e cs) eqn:H
      end ].

Ltac wd_exec := wd_eval; repeat (wd_split; wd_eval).

(** Bring a trace built by [log] into the form [tr ++ [e1; ...; en]]. *)
Ltac norm_trace := unfold log; rewrite <- ?app_assoc; cbn [app].

Lemma printed_log_here (tr : list event) (text : string) :
  printed (log tr (Print text)) text = true.
Proof.
  unfold log. rewrite printed_app. cbn. rewrite String.eqb_refl.
  apply orb_true_r.
Qed.

(** ** install-faster-whisper.py *)


(** C2: a missing runtime or package tool aborts before any installation.
    In install-faster-whisper.py, whenever the python or the pip version
    query fails, the process exits with status 1 and the only commands
    issued are the version queries themselves.  In install-whisper-deps.py,
    an interpreter older than 3.8 exits with status 1 before any child
    process is started. *)
Theorem missing_tool_aborts (w : World) :
  (failed_in (snd (FasterWhisper.run w)) (Shell "python --version")
   \/ failed_in (snd (FasterWhisper.run w)) (Shell "pip --version") ->
   fst (FasterWhisper.run w) = Exited 1
   /\ (spawned (snd (FasterWhisper.run w)) = [Shell "python --version"]
       \/ spawned (snd (FasterWhisper.run w))
          = [Shell "python --version"; Shell "pip --version"]))
  /\ (tuple_lt (version_info w) [3; 8] = true ->
      fst (WhisperDeps.run w) = Exited 1
      /\ spawned (snd (WhisperDeps.run w)) = []).
Proof.
  split.
  - fw_run; unfold failed_in; lazy;
      (intros [H|H]; try discriminate H; auto).
  - intros H. wd_lazy. rewrite H. lazy. auto.
Qed.

Lemma missing_tool_aborts_witness :
  (fst (FasterWhisper.run Hosts.bare) = Exited 1
   /\ (spawned (snd (FasterWhisper.run Hosts.bare)) = [Shell "python --version"]
       \/ spawned (snd (FasterWhisper.run Hosts.bare))
          = [Shell "python --version"; Shell "pip --version"]))
  /\ (fst (WhisperDeps.run Hosts.bare) = Exited 1
      /\ spawned (snd (WhisperDeps.run Hosts.bare)) = []).
Proof.
  destruct (missing_tool_aborts Hosts.bare) as [H1 H2].
  split.
  - apply H1. left. vm_compute. reflexivity.
  - apply H2. vm_compute. reflexivity.
Defined.

(** C4: a failed primary installation followed by a successful fallback is
    an overall success.  In every run of install-faster-whisper.py in which
    [pip install faster-whisper] fails and [pip install --upgrade
    faster-whisper] succeeds, the success line is printed and the process
    exits with status 0; and in every run whatsoever the fallback is
    started at most once. *)
Theorem fallback_rescues_install (w : World) :
  (failed_in (snd (FasterWhisper.run w)) primary_install ->
   succeeded_in (snd (FasterWhisper.run w)) fallback_install ->
   fst (FasterWhisper.run w) = Exited 0
   /\ printed (snd (FasterWhisper.run w))
              "✅ Alternative installation successful!" = true)
  /\ (times fallback_install (snd (FasterWhisper.run w)) <= 1)%nat.
Proof.
  split.
  - fw_run; unfold failed_in, succeeded_in; lazy;
      (intros H1 H2; try discriminate H1; try discriminate H2; auto).
  - fw_run; unfold times; lazy; auto.
Qed.

Lemma fallback_rescues_install_witness :
  fst (FasterWhisper.run Hosts.needs_upgrade) = Exited 0
  /\ printed (snd (FasterWhisper.run Hosts.needs_upgrade))
             "✅ Alternative installation successful!" = true.
Proof.
  apply (proj1 (fallback_rescues_install Hosts.needs_upgrade));
    vm_compute; reflexivity.
Defined.

(** C5 as stated fails for install-faster-whisper.py: on a host where
    python and pip answer and [pip install faster-whisper] succeeds but the
    import check fails, the process exits with status 1. *)
Lemma failed_verification_exits_1 :
  succeeded_in (snd (FasterWhisper.run Hosts.broken_library))
               (Shell "python --version")
  /\ succeeded_in (snd (FasterWhisper.run Hosts.broken_library))
                  (Shell "pip --version")
  /\ succeeded_in (snd (FasterWhisper.run Hosts.broken_library))
                  primary_install
  /\ failed_in (snd (FasterWhisper.run Hosts.broken_library))
               (Shell FasterWhisper.verify_command)
  /\ exit_status (fst (FasterWhisper.run Hosts.broken_library)) = 1%Z
  /\ exit_status (fst (FasterWhisper.run Hosts.broken_library)) <> 0%Z.
Proof.
  repeat split; try (vm_compute; reflexivity).
  vm_compute. discriminate.
Qed.

(** In install-faster-whisper.py a failed verification is logged and
    fatal; main always returns a boolean, which alone decides the exit
    status. *)
Lemma faster_whisper_verification (w : World) :
  failed_in (snd (FasterWhisper.run w)) (Shell FasterWhisper.verify_command) ->
  fst (FasterWhisper.run w) = Exited 1
  /\ exists err,
      printed (snd (FasterWhisper.run w)) ("❌ Verification failed: " ++ err)
      = true.
Proof.
  fw_run; unfold failed_in;
    (intros H; first [ discriminate H | split; [reflexivity|] ]);
    match goal with
    | |- context [Print ("❌ Verification failed: " ++ ?e)] => exists e
    end; apply printed_log_here.
Qed.


(** ** install-whisper-deps.py *)

Lemma isinstance_weaken_l e a b :
  isinstance e [a] = true -> isinstance e [a; b] = true.
Proof.
  unfold isinstance. simpl. rewrite !orb_false_r. intros ->. reflexivity.
Qed.

Lemma isinstance_weaken_r e a b :
  isinstance e [b] = true -> isinstance e [a; b] = true.
Proof.
  unfold isinstance. simpl. rewrite !orb_false_r. intros ->.
  apply orb_true_r.
Qed.

Section Components.

Variable w : World.
Variable X : exception -> Prop.
Hypothesis HX : failures_within w X.

Ltac may_simple :=
  repeat first
    [ apply may_ret
    | apply may_print; exact I
    | apply may_ask_bind
    | apply may_when
    | apply may_if
    | apply may_bind; [|intros ?] ].

(** A package-manager or pip invocation: its event is of the expected
    kind, and what it can raise is CalledProcessError or in [X]. *)
Ltac may_call :=
  apply may_check_call;
  [ intros ?; first [ vm_compute; reflexivity | eexists; reflexivity | exact I ]
  | intros ?; left; reflexivity
  | let H := fresh in
    intros ? ? H;
    destruct (proj1 HX _ _ _ H) as [?|[[? ?]|?]];
    [ left; assumption | discriminate | right; assumption ] ].

Lemma may_install_package (package : string) :
  may w (pip_event w) X (WhisperDeps.install_package package).
Proof.
  unfold WhisperDeps.install_package.
  apply may_try1; [|intros ?]; may_simple.
  unfold WhisperDeps.pip_install. may_call.
Qed.

Lemma may_install_ffmpeg : may w install_event X WhisperDeps.install_ffmpeg.
Proof.
  unfold WhisperDeps.install_ffmpeg.
  apply may_ask_bind. cbv zeta.
  repeat first
    [ apply may_if
    | apply may_ask_bind
    | apply may_try1; [|intros ?]
    | progress may_simple
    | may_call ].
Qed.

Lemma may_check_ffmpeg :
  may w (fun _ => True) X WhisperDeps.check_ffmpeg.
Proof.
  unfold WhisperDeps.check_ffmpeg.
  apply may_try1; [|intros ?]; may_simple.
  apply may_check_call.
  - intros ?. exact I.
  - intros ?. left. reflexivity.
  - intros tr e H.
    destruct (proj1 HX _ _ _ H) as [H1|[[_ H1]|H1]].
    + left. apply isinstance_weaken_l. exact H1.
    + left. apply isinstance_weaken_r. exact H1.
    + right. exact H1.
Qed.

Lemma may_install_whisper_dependencies :
  may w (pip_event w) X WhisperDeps.install_whisper_dependencies.
Proof.
  unfold WhisperDeps.install_whisper_dependencies.
  apply may_bind; [|intros _].
  - apply may_for_each. intros package.
    may_simple. apply may_install_package.
  - apply may_try1; [|intros ?]; may_simple.
    + apply may_import; [intros ?; exact I|].
      intros tr e H. exact (proj2 HX _ _ H).
    + apply may_install_package.
Qed.

End Components.

(** The smoke test catches everything: it always returns. *)
Lemma may_test_whisper_installation (w : World) :
  may w (pip_event w) (fun _ => False) WhisperDeps.test_whisper_installation.
Proof.
  unfold WhisperDeps.test_whisper_installation.
  apply may_try with (X' := fun _ => True).
  - repeat first
      [ apply may_ret
      | apply may_print; exact I
      | apply may_bind; [|intros ?]
      | apply may_import; [intros ?; exact I|auto]
      | apply may_load_model; [intros ?; exact I|auto] ].
  - intros e _. unfold select_clause. rewrite isinstance_Exception.
    destruct (isinstance e [ImportError]);
      (apply may_bind; [apply may_print; exact I|intros ?; apply may_ret]).
Qed.

(** *** The run of [main], step by step *)

Lemma main_eq :
  WhisperDeps.main =
  (args <- ask parse_args ;;
   print "Checking Python version..." ;;
   WhisperDeps.check_python_version ;;
   Phases.ffmpeg_phase args ;;
   Phases.rest args).
Proof. reflexivity. Qed.

Lemma check_python_version_ok (w : World) (tr : list event) :
  python_supported w ->
  WhisperDeps.check_python_version w tr
  = (Return tt, log tr (Print ("Python version: " ++ sys_version w))).
Proof.
  intros H. unfold WhisperDeps.check_python_version.
  rewrite bind_ask, bind_eq. rewrite H. reflexivity.
Qed.

Lemma check_python_version_old (w : World) (tr : list event) :
  tuple_lt (version_info w) [3; 8] = true ->
  WhisperDeps.check_python_version w tr
  = (Raise (SystemExit 1),
     log tr (Print "Error: Python 3.8 or higher is required")).
Proof.
  intros H. unfold WhisperDeps.check_python_version.
  rewrite bind_ask, bind_eq. rewrite H. reflexivity.
Qed.

Lemma main_supported (w : World) :
  python_supported w ->
  WhisperDeps.main w []
  = bind (Phases.ffmpeg_phase (parse_args w))
         (fun _ => Phases.rest (parse_args w)) w (Phases.head w).
Proof.
  intros H. rewrite main_eq, bind_ask, bind_print, bind_eq.
  rewrite check_python_version_ok by exact H. reflexivity.
Qed.

Lemma run_old (w : World) :
  tuple_lt (version_info w) [3; 8] = true ->
  WhisperDeps.run w
  = (Exited 1, [ Print "Checking Python version...";
                 Print "Error: Python 3.8 or higher is required" ]).
Proof.
  intros H. unfold WhisperDeps.run, run_module, WhisperDeps.script.
  rewrite main_eq, bind_ask, bind_print, bind_eq.
  rewrite check_python_version_old by exact H. reflexivity.
Qed.

Lemma may_ffmpeg_phase (w : World) X (args : Namespace) :
  failures_within w X ->
  may w (fun _ => True) X (Phases.ffmpeg_phase args).
Proof.
  intros HX. unfold Phases.ffmpeg_phase.
  apply may_when. apply may_bind; [apply may_print; exact I|intros _].
  apply may_bind; [apply may_check_ffmpeg; exact HX|intros present].
  apply may_when. apply may_bind; [apply may_print; exact I|intros _].
  apply may_bind; [|intros _; apply may_ret].
  apply may_weaken with (3 := may_install_ffmpeg w X HX); auto.
Qed.

Lemma may_rest (w : World) X (args : Namespace) :
  failures_within w X ->
  may w (pip_event w) X (Phases.rest args).
Proof.
  intros HX. unfold Phases.rest, Phases.test_phase.
  apply may_bind; [apply may_print; exact I|intros _].
  apply may_bind;
    [apply may_install_whisper_dependencies; exact HX|intros _].
  apply may_bind; [|intros _; apply may_print; exact I].
  apply may_when. apply may_bind; [apply may_print; exact I|intros _].
  apply may_bind; [|intros _; apply may_ret].
  apply may_weaken with (3 := may_test_whisper_installation w); auto.
  intros e [].
Qed.

(** On a supported interpreter the process ends with status 0 or by an
    uncaught exception in [X]. *)
Lemma run_supported (w : World) X :
  python_supported w -> failures_within w X ->
  fst (WhisperDeps.run w) = Exited 0
  \/ exists e, fst (WhisperDeps.run w) = Uncaught e /\ X e.
Proof.
  intros Hv HX. unfold WhisperDeps.run, run_module, WhisperDeps.script.
  rewrite main_supported by exact Hv.
  assert (Hm : may w (fun _ => True) X
                   (bind (Phases.ffmpeg_phase (parse_args w))
                         (fun _ => Phases.rest (parse_args w)))).
  { apply may_bind; [apply may_ffmpeg_phase; exact HX|intros _].
    apply may_weaken with (3 := may_rest w X (parse_args w) HX); auto. }
  destruct (Hm (Phases.head w)) as (r & d & -> & _ & Hr).
  destruct r as [a|[n|e]]; simpl.
  - left. reflexivity.
  - destruct Hr.
  - right. exists e. auto.
Qed.

Lemma anything_goes (w : World) : failures_within w (fun _ => True).
Proof. split; intros; auto. Qed.

(** *** Exact behaviour when every failure is a handled one *)

Section Handled.

Variable w : World.
Hypothesis Hw : handled_failures_only w.

Lemma install_package_handled (package : string) (tr : list event) :
  exists b d,
    WhisperDeps.install_package package w tr = (Return b, (tr ++ d)%list)
    /\ spawned d = [pip w package].
Proof.
  unfold WhisperDeps.install_package, try_except.
  rewrite bind_ask, bind_eq. unfold check_call, log.
  fold (pip w package).
  destruct (popen w tr (pip w package)) as [rc out err|e] eqn:Ho.
  - destruct (rc =? 0)%Z.
    + exists true, [Spawn (pip w package) (Completed rc out err)].
      split; reflexivity.
    + exists false, [Spawn (pip w package) (Completed rc out err);
                     Print ("Failed to install " ++ package)].
      split; [|reflexivity].
      unfold select_clause.
      change (isinstance _ [CalledProcessError]) with true.
      cbv beta iota. rewrite bind_print. unfold ret, log. rewrite <- app_assoc. reflexivity.
  - exists false, [Spawn (pip w package) (Failed e);
                   Print ("Failed to install " ++ package)].
    split; [|reflexivity].
    unfold select_clause.
    destruct (proj1 Hw _ _ _ Ho) as [Hi|[[Hi _]|[]]]; [|discriminate Hi].
    rewrite Hi. cbv beta iota.
    rewrite bind_print. unfold ret, log. rewrite <- app_assoc. reflexivity.
Qed.

Lemma install_loop_handled (packages : list string) (tr : list event) :
  exists d,
    for_each packages (fun package =>
      print ("Installing " ++ package ++ "...") ;;
      ok <- WhisperDeps.install_package package ;;
      when (negb ok) (print ("Warning: Failed to install " ++ package)))
      w tr
    = (Return tt, (tr ++ d)%list)
    /\ spawned d = map (pip w) packages.
Proof.
  revert tr. induction packages as [|package packages IH]; intros tr.
  - exists []. rewrite app_nil_r. split; reflexivity.
  - cbn [for_each]. rewrite bind_assoc, bind_print, bind_assoc, bind_eq.
    destruct (install_package_handled package (log tr (Print ("Installing " ++ package ++ "..."))))
      as (b & d & -> & Hd).
    rewrite bind_eq.
    destruct b; cbn [negb when].
    + unfold ret at 1.
      destruct (IH (log tr (Print ("Installing " ++ package ++ "...")) ++ d)%list)
        as (d' & -> & Hd').
      exists (Print ("Installing " ++ package ++ "...") :: d ++ d')%list.
      split.
      * unfold log. rewrite <- !app_assoc. reflexivity.
      * cbn [spawned map]. rewrite spawned_app, Hd, Hd'. reflexivity.
    + unfold print at 1.
      destruct (IH (log (log tr (Print ("Installing " ++ package ++ "...")) ++ d)
                        (Print ("Warning: Failed to install " ++ package)))%list)
        as (d' & -> & Hd').
      exists (Print ("Installing " ++ package ++ "...") :: d
              ++ Print ("Warning: Failed to install " ++ package) :: d')%list.
      split.
      * unfold log. rewrite <- !app_assoc. reflexivity.
      * cbn [spawned map]. rewrite spawned_app, Hd. cbn [spawned].
        rewrite Hd'. reflexivity.
Qed.

Lemma dependencies_handled (tr : list event) :
  exists d,
    WhisperDeps.install_whisper_dependencies w tr
    = (Return tt, (tr ++ d)%list)
    /\ (spawned d = map (pip w) WhisperDeps.dependencies
        \/ spawned d = (map (pip w) WhisperDeps.dependencies
                        ++ [pip w "tiktoken"])%list).
Proof.
  unfold WhisperDeps.install_whisper_dependencies. rewrite bind_eq.
  destruct (install_loop_handled WhisperDeps.dependencies tr)
    as (d & -> & Hd).
  unfold try_except. rewrite bind_eq. unfold import_ at 1.
  destruct (import_module w (tr ++ d)%list "tiktoken") as [e|] eqn:Hi.
  - unfold select_clause.
    destruct (proj2 Hw _ _ Hi) as [He|[]]. rewrite He. cbv beta iota.
    rewrite bind_print, bind_eq.
    destruct (install_package_handled "tiktoken"
                (log (log (tr ++ d)%list (Import "tiktoken" (Some e)))
                     (Print "Installing tiktoken...")))
      as (b & d' & -> & Hd').
    destruct b; cbn [negb when].
    + exists (d ++ Import "tiktoken" (Some e)
                :: Print "Installing tiktoken..." :: d')%list.
      split.
      * unfold ret, log. rewrite <- !app_assoc. reflexivity.
      * right. rewrite spawned_app. cbn [spawned]. rewrite Hd, Hd'.
        reflexivity.
    + exists (d ++ Import "tiktoken" (Some e)
                :: Print "Installing tiktoken..."
                :: d' ++ [Print "Warning: Failed to install tiktoken"])%list.
      split.
      * unfold print, log. rewrite <- !app_assoc. reflexivity.
      * right. rewrite !spawned_app. cbn [spawned].
        rewrite spawned_app, Hd, Hd'. cbn [spawned].
        rewrite app_nil_r. reflexivity.
  - cbv beta iota zeta. unfold print.
    exists (d ++ [Import "tiktoken" None;
                  Print "tiktoken is already installed"])%list.
    split.
    + unfold log. rewrite <- !app_assoc. reflexivity.
    + left. rewrite spawned_app. cbn [spawned]. rewrite app_nil_r. exact Hd.
Qed.

End Handled.



(** C9: in install-whisper-deps.py no failure of a step reaches the exit
    status.  On an interpreter of version 3.8 or later, a run that does not
    end in an uncaught exception, or that runs on a host whose failures are
    all of the handled kinds, exits with status 0, whatever the ffmpeg
    probe, the ffmpeg installation, the package installations and the
    verification did. *)
Theorem step_failures_never_reach_exit_status (w : World) :
  python_supported w ->
  (forall e, fst (WhisperDeps.run w) <> Uncaught e)
  \/ handled_failures_only w ->
  fst (WhisperDeps.run w) = Exited 0.
Proof.
  intros Hv [Hno|Hw].
  - destruct (run_supported w (fun _ => True) Hv (anything_goes w))
      as [H|(e & H & _)]; [exact H|].
    destruct (Hno e H).
  - destruct (run_supported w (fun _ => False) Hv Hw)
      as [H|(e & _ & [])]. exact H.
Qed.

Lemma step_failures_never_reach_exit_status_witness :
  fst (WhisperDeps.run Hosts.all_fail) = Exited 0.
Proof.
  apply (step_failures_never_reach_exit_status Hosts.all_fail).
  - reflexivity.
  - left. intros e. vm_compute. discriminate.
Defined.

(** *** The ffmpeg step *)

Lemma succeeded_not_absent (o : completion) :
  succeeded o = true -> reports_absent o = false.
Proof.
  destruct o as [rc out err|e]; simpl; [|discriminate].
  intros ->. reflexivity.
Qed.

(** What [check_ffmpeg] does, by the probe's answer. *)
Lemma check_ffmpeg_eq (w : World) (tr : list event) :
  WhisperDeps.check_ffmpeg w tr =
  let o := popen w tr ffmpeg_check in
  if succeeded o then
    (Return true,
     (tr ++ [Spawn ffmpeg_check o; Print "ffmpeg is already installed"])%list)
  else if reports_absent o then
    (Return false,
     (tr ++ [Spawn ffmpeg_check o; Print "ffmpeg is not installed"])%list)
  else
    (match o with
     | Failed e => Raise (Exc e)
     | Completed _ _ _ => Return false
     end,
     (tr ++ [Spawn ffmpeg_check o])%list).
Proof.
  unfold WhisperDeps.check_ffmpeg, ffmpeg_check. cbv zeta.
  wd_exec; norm_trace; cbn [succeeded reports_absent Z.eqb negb];
    rewrite ?Hi; reflexivity.
Qed.

(** The Debian branch of [install_ffmpeg]: the update is always started,
    the install only after a successful update. *)
Lemma install_ffmpeg_debian (w : World) (tr : list event) :
  lower (platform_system w) = "linux" ->
  path_exists w "/etc/debian_version" = true ->
  exists r d,
    WhisperDeps.install_ffmpeg w tr = (r, (tr ++ d)%list)
    /\ spawned d
       = apt_update :: (if existsb succeeded (answers apt_update d)
                        then [apt_install] else []).
Proof.
  intros Hlinux Hdeb. unfold WhisperDeps.install_ffmpeg.
  rewrite bind_ask. cbv zeta. rewrite Hlinux.
  cbv beta iota delta [String.eqb Ascii.eqb Bool.eqb].
  rewrite bind_ask, Hdeb.
  wd_exec; norm_trace; (eexists _, _; split; [reflexivity|]);
    lazy; reflexivity.
Qed.

(** The ffmpeg step of [main], by cases: skipped; probe succeeded; probe
    raised something unhandled; probe reported absence and [install_ffmpeg]
    ran. *)
Lemma ffmpeg_phase_cases (args : Namespace) (w : World) (tr : list event) :
  exists r d,
    Phases.ffmpeg_phase args w tr = (r, (tr ++ d)%list)
    /\ (d = []
        \/ (exists o, succeeded o = true
                      /\ d = [ Print "Checking ffmpeg...";
                               Spawn ffmpeg_check o;
                               Print "ffmpeg is already installed" ])
        \/ (exists o, succeeded o = false /\ reports_absent o = false
                      /\ d = [ Print "Checking ffmpeg...";
                               Spawn ffmpeg_check o ])
        \/ (exists o r' d',
               succeeded o = false /\ reports_absent o = true
               /\ d = ([ Print "Checking ffmpeg...";
                         Spawn ffmpeg_check o;
                         Print "ffmpeg is not installed";
                         Print "Installing ffmpeg..." ] ++ d')%list
               /\ Forall install_event d'
               /\ WhisperDeps.install_ffmpeg w
                    (tr ++ [ Print "Checking ffmpeg...";
                             Spawn ffmpeg_check o;
                             Print "ffmpeg is not installed";
                             Print "Installing ffmpeg..." ])%list
                  = (r', ((tr ++ [ Print "Checking ffmpeg...";
                                   Spawn ffmpeg_check o;
                                   Print "ffmpeg is not installed";
                                   Print "Installing ffmpeg..." ]) ++ d')%list))).
Proof.
  unfold Phases.ffmpeg_phase. destruct (skip_ffmpeg args); cbn [negb when].
  - exists (Return tt), []. rewrite app_nil_r. auto.
  - rewrite bind_print, bind_eq, check_ffmpeg_eq. cbv zeta.
    set (o := popen w (log tr (Print "Checking ffmpeg...")) ffmpeg_check).
    clearbody o.
    destruct (succeeded o) eqn:Hs; [|destruct (reports_absent o) eqn:Ha].
    + cbn [negb when]. eexists _, _. split; [norm_trace; reflexivity|].
      right. left. exists o. auto.
    + cbn [negb when]. rewrite bind_print, bind_eq.
      destruct (may_install_ffmpeg w (fun _ => True) (anything_goes w)
                  (log (log tr (Print "Checking ffmpeg...")
                        ++ [Spawn ffmpeg_check o;
                            Print "ffmpeg is not installed"])
                       (Print "Installing ffmpeg...")))
        as (r' & d' & Heq & Hd' & _).
      revert Heq. norm_trace. intros Heq. rewrite Heq.
      exists (match r' with Return _ => Return tt | Raise x => Raise x end),
        ([ Print "Checking ffmpeg..."; Spawn ffmpeg_check o;
           Print "ffmpeg is not installed"; Print "Installing ffmpeg..." ]
           ++ d')%list.
      split.
      * destruct r'; reflexivity.
      * right. right. right. exists o, r', d'.
        rewrite <- app_assoc. cbn [app]. auto 10.
    + destruct o as [rc out err|e].
      { simpl in Hs, Ha. rewrite Hs in Ha. discriminate Ha. }
      eexists _, _. split; [norm_trace; reflexivity|].
      right. right. left. exists (Failed e). auto.
Qed.

(** A run on a supported interpreter: the head, then the ffmpeg step, then
    steps whose only children are pip installations. *)
Lemma run_split (w : World) (P : list event -> Prop) :
  python_supported w ->
  (forall tr, exists r d,
      Phases.ffmpeg_phase (parse_args w) w tr = (r, (tr ++ d)%list) /\ P d) ->
  exists t d1 d2,
    WhisperDeps.run w = (t, (Phases.head w ++ d1 ++ d2)%list)
    /\ P d1 /\ Forall (pip_event w) d2.
Proof.
  intros Hv Hff. unfold WhisperDeps.run, run_module, WhisperDeps.script.
  rewrite main_supported by exact Hv. rewrite bind_eq.
  destruct (Hff (Phases.head w)) as (r1 & d1 & -> & HP).
  destruct r1 as [[]|x].
  - destruct (may_rest w (fun _ => True) (parse_args w) (anything_goes w)
                (Phases.head w ++ d1)%list) as (r & d2 & -> & Hd2 & _).
    rewrite <- app_assoc.
    destruct r as [a|[n|e]]; eexists _, d1, d2; auto.
  - destruct x as [n|e]; eexists _, d1, []; rewrite app_nil_r; auto.
Qed.

Lemma head_quiet (w : World) (c : command) :
  answers c (Phases.head w) = [] /\ ffmpeg_installs (Phases.head w) = [].
Proof. split; reflexivity. Qed.

(** C3: a present binary is not installed again.  If the probe
    [ffmpeg -version] succeeds, [check_ffmpeg] returns True after printing
    that ffmpeg is already installed; and a run of install-whisper-deps.py
    in which the probe succeeded contains no binary-install invocation at
    all (no brew, apt or pacman command) and reports the binary as
    installed. *)
Theorem present_binary_is_not_reinstalled (w : World) :
  (forall tr,
      succeeded (popen w tr ffmpeg_check) = true ->
      WhisperDeps.check_ffmpeg w tr
      = (Return true,
         (tr ++ [ Spawn ffmpeg_check (popen w tr ffmpeg_check);
                  Print "ffmpeg is already installed" ])%list))
  /\ (succeeded_in (snd (WhisperDeps.run w)) ffmpeg_check ->
      ffmpeg_installs (snd (WhisperDeps.run w)) = []
      /\ printed (snd (WhisperDeps.run w)) "ffmpeg is already installed"
         = true).
Proof.
  split.
  - intros tr H. rewrite check_ffmpeg_eq. cbv zeta. rewrite H. reflexivity.
  - destruct (tuple_lt (version_info w) [3; 8]) eqn:Hv.
    + rewrite run_old by exact Hv. intros H. discriminate H.
    + destruct (run_split w
                  (fun d => succeeded_in d ffmpeg_check ->
                            ffmpeg_installs d = []
                            /\ printed d "ffmpeg is already installed" = true)
                  Hv) as (t & d1 & d2 & -> & HP & Hd2).
      * intros tr.
        destruct (ffmpeg_phase_cases (parse_args w) w tr)
          as (r & d & Heq & Hcases).
        exists r, d. split; [exact Heq|].
        destruct Hcases as [->|[(o & Ho & ->)|[(o & Ho & _ & ->)
                                |(o & r' & d' & Ho & _ & -> & Hd' & _)]]].
        -- intros H. discriminate H.
        -- intros _. split; reflexivity.
        -- unfold succeeded_in. cbn [answers command_eqb ffmpeg_check argv_eqb].
           cbn. rewrite Ho. discriminate.
        -- unfold succeeded_in. rewrite answers_app.
           rewrite (install_events_no_probe d' Hd').
           cbn. rewrite Ho. discriminate.
      * cbn [snd]. unfold succeeded_in.
        rewrite !answers_app, !ffmpeg_installs_app, !printed_app.
        rewrite (proj1 (head_quiet w ffmpeg_check)),
          (proj2 (head_quiet w ffmpeg_check)).
        rewrite (pip_events_no_answers w ffmpeg_check d2
                   (not_pip_2 w "ffmpeg" "-version") Hd2).
        rewrite (pip_events_no_installs w d2 Hd2).
        rewrite app_nil_r. cbn [app]. intros H.
        destruct (HP H) as [H1 H2]. rewrite H1, H2.
        split; [reflexivity|]. rewrite orb_true_r. reflexivity.
Qed.

Lemma present_binary_is_not_reinstalled_witness :
  WhisperDeps.check_ffmpeg Hosts.provisioned []
  = (Return true,
     [ Spawn ffmpeg_check (Hosts.exit_with 0);
       Print "ffmpeg is already installed" ])
  /\ ffmpeg_installs (snd (WhisperDeps.run Hosts.provisioned)) = []
  /\ printed (snd (WhisperDeps.run Hosts.provisioned))
             "ffmpeg is already installed" = true.
Proof.
  destruct (present_binary_is_not_reinstalled Hosts.provisioned) as [H1 H2].
  split.
  - apply (H1 []). reflexivity.
  - apply H2. vm_compute. reflexivity.
Defined.

(** C6, as the code has it: on Linux with the Debian marker file, in a run
    whose ffmpeg probe reported the binary absent, the binary-install
    invocations are [sudo apt update], started first and exactly once,
    followed by [sudo apt install -y ffmpeg], started exactly once, if and
    only if the update succeeded; no other package-manager command is
    issued. *)
Theorem debian_update_then_install (w : World) :
  lower (platform_system w) = "linux" ->
  path_exists w "/etc/debian_version" = true ->
  absent_in (snd (WhisperDeps.run w)) ->
  ffmpeg_installs (snd (WhisperDeps.run w))
  = apt_update
      :: (if existsb succeeded (answers apt_update (snd (WhisperDeps.run w)))
          then [apt_install] else []).
Proof.
  intros Hlinux Hdeb.
  destruct (tuple_lt (version_info w) [3; 8]) eqn:Hv.
  { rewrite run_old by exact Hv. intros H. discriminate H. }
  destruct (run_split w
              (fun d => absent_in d ->
                        ffmpeg_installs d
                        = apt_update
                            :: (if existsb succeeded (answers apt_update d)
                                then [apt_install] else []))
              Hv) as (t & d1 & d2 & -> & HP & Hd2).
  - intros tr.
    destruct (ffmpeg_phase_cases (parse_args w) w tr)
      as (r & d & Heq & Hcases).
    exists r, d. split; [exact Heq|].
    destruct Hcases as [->|[(o & Ho & ->)|[(o & Ho & Ha & ->)
                            |(o & r' & d' & Ho & _ & -> & Hd' & Hi)]]].
    + intros H. discriminate H.
    + unfold absent_in. cbn.
      rewrite (succeeded_not_absent o Ho). discriminate.
    + unfold absent_in. cbn. rewrite Ha. discriminate.
    + intros _.
      destruct (install_ffmpeg_debian w
                  (tr ++ [ Print "Checking ffmpeg..."; Spawn ffmpeg_check o;
                           Print "ffmpeg is not installed";
                           Print "Installing ffmpeg..." ])%list Hlinux Hdeb)
        as (r2 & d2' & Heq2 & Hsp).
      rewrite Heq2 in Hi. injection Hi as _ Hd. apply app_inv_head in Hd.
      subst d2'.
      rewrite ffmpeg_installs_app, answers_app.
      rewrite (install_events_installs d' Hd'). exact Hsp.
  - cbn [snd]. unfold absent_in.
    rewrite !answers_app, !ffmpeg_installs_app.
    rewrite (proj1 (head_quiet w ffmpeg_check)),
      (proj1 (head_quiet w apt_update)), (proj2 (head_quiet w ffmpeg_check)).
    rewrite (pip_events_no_answers w ffmpeg_check d2
               (not_pip_2 w "ffmpeg" "-version") Hd2).
    rewrite (pip_events_no_answers w apt_update d2
               (not_pip_sudo w ["update"]) Hd2).
    rewrite (pip_events_no_installs w d2 Hd2).
    rewrite !app_nil_r. cbn [app]. exact HP.
Qed.

Lemma debian_update_then_install_witness :
  ffmpeg_installs (snd (WhisperDeps.run Hosts.fresh_debian))
  = [apt_update; apt_install].
Proof.
  apply (debian_update_then_install Hosts.fresh_debian);
    vm_compute; reflexivity.
Defined.

(** C6 as stated fails where the update itself fails: on a Debian host
    without ffmpeg whose [sudo apt update] ends with status 1, the install
    command is never started. *)
Lemma failed_update_skips_install :
  lower (platform_system Hosts.all_fail) = "linux"
  /\ path_exists Hosts.all_fail "/etc/debian_version" = true
  /\ absent_in (snd (WhisperDeps.run Hosts.all_fail))
  /\ ffmpeg_installs (snd (WhisperDeps.run Hosts.all_fail)) = [apt_update]
  /\ ffmpeg_installs (snd (WhisperDeps.run Hosts.all_fail))
     <> [apt_update; apt_install].
Proof.
  repeat split; try (vm_compute; reflexivity).
  vm_compute. discriminate.
Qed.

(** *** The platform table *)

(** C1: install_ffmpeg is a classification followed by a fixed action.
    For every OS name and every combination of marker files, what
    install_ffmpeg does equals the action of the one category that
    [classify] computes from the lowercased name and the presence of
    /etc/debian_version and /etc/arch-release; the child processes it
    starts are an initial segment of that category's fixed list of
    package-manager invocations (empty for the guidance-only
    categories). *)
Theorem install_ffmpeg_by_category (w : World) (tr : list event) :
  WhisperDeps.install_ffmpeg w tr
  = Platform.perform
      (Platform.classify (lower (platform_system w))
                         (path_exists w "/etc/debian_version")
                         (path_exists w "/etc/arch-release"))
      (lower (platform_system w)) w tr
  /\ exists k,
      spawned (snd (WhisperDeps.install_ffmpeg w tr))
      = (spawned tr
         ++ firstn k (map Argv
              (Platform.invocations
                 (Platform.classify (lower (platform_system w))
                                    (path_exists w "/etc/debian_version")
                                    (path_exists w "/etc/arch-release")))))%list.
Proof.
  unfold WhisperDeps.install_ffmpeg, Platform.classify.
  rewrite bind_ask. cbv zeta.
  destruct (lower (platform_system w) =? "windows")%string;
    [|destruct (lower (platform_system w) =? "darwin")%string;
      [|destruct (lower (platform_system w) =? "linux")%string]].
  - split; [reflexivity|]. exists 0. cbn. autorewrite with trace.
    rewrite app_nil_r. reflexivity.
  - split.
    + unfold Platform.perform. cbn [Platform.invocations Platform.guidance].
      wd_exec; reflexivity.
    + cbn [Platform.invocations map].
      wd_exec; cbn [snd]; autorewrite with trace;
        first [ exists 1; reflexivity
              | exists 2; cbn [firstn]; rewrite <- app_assoc; reflexivity ].
  - rewrite !bind_ask.
    destruct (path_exists w "/etc/debian_version");
      [|rewrite bind_ask; destruct (path_exists w "/etc/arch-release")].
    + split.
      * unfold Platform.perform.
        cbn [Platform.invocations Platform.guidance].
        wd_exec; reflexivity.
      * cbn [Platform.invocations map].
        wd_exec; cbn [snd]; autorewrite with trace;
          first [ exists 1; reflexivity
                | exists 2; cbn [firstn]; rewrite <- app_assoc; reflexivity ].
    + split.
      * unfold Platform.perform.
        cbn [Platform.invocations Platform.guidance].
        wd_exec; reflexivity.
      * cbn [Platform.invocations map].
        wd_exec; cbn [snd]; autorewrite with trace; exists 1; reflexivity.
    + split; [reflexivity|]. exists 0. cbn. autorewrite with trace.
      rewrite app_nil_r. reflexivity.
  - split; [reflexivity|]. exists 0. cbn [snd]. wd_eval.
    autorewrite with trace. cbn. rewrite app_nil_r. reflexivity.
Qed.

(** *** Verification *)

(** The smoke test returns a boolean in every case; it is False exactly
    when an error line was printed. *)
Lemma test_whisper_installation_cases (w : World) (tr : list event) :
  exists b d,
    WhisperDeps.test_whisper_installation w tr = (Return b, (tr ++ d)%list)
    /\ b = negb (error_logged d).
Proof.
  unfold WhisperDeps.test_whisper_installation.
  wd_exec; norm_trace; (eexists _, _; split; [reflexivity|]);
    lazy; reflexivity.
Qed.

(** C5, as the code has it.  In install-whisper-deps.py the result of the
    verification is discarded: on a supported interpreter whose host fails
    only in the handled ways, a run with --test executes the smoke test,
    prints "Done!" after it and exits with status 0 whether the test
    returned True or False (False exactly when an error line was logged).
    In install-faster-whisper.py a failed verification is logged and the
    process exits with status 1. *)
Theorem verification_failure_effect (w : World) :
  (python_supported w -> handled_failures_only w ->
   test (parse_args w) = true ->
   exists tr0 b d,
     snd (WhisperDeps.run w) = (tr0 ++ d ++ [Print "Done!"])%list
     /\ WhisperDeps.test_whisper_installation w tr0
        = (Return b, (tr0 ++ d)%list)
     /\ b = negb (error_logged d)
     /\ fst (WhisperDeps.run w) = Exited 0)
  /\ (failed_in (snd (FasterWhisper.run w))
                (Shell FasterWhisper.verify_command) ->
      fst (FasterWhisper.run w) = Exited 1
      /\ exists err,
          printed (snd (FasterWhisper.run w))
                  ("❌ Verification failed: " ++ err) = true).
Proof.
  split; [|apply faster_whisper_verification].
  intros Hv Hw Htest.
  unfold WhisperDeps.run, run_module, WhisperDeps.script.
  rewrite main_supported by exact Hv. rewrite bind_eq.
  destruct (may_ffmpeg_phase w (fun _ => False) (parse_args w) Hw
              (Phases.head w)) as (r1 & d1 & -> & _ & Hr1).
  destruct r1 as [[]|[n|e]]; try contradiction.
  unfold Phases.rest, Phases.test_phase. rewrite Htest. cbn [when].
  rewrite bind_print, bind_eq.
  destruct (dependencies_handled w Hw
              (log (Phases.head w ++ d1)%list
                   (Print "Installing Whisper dependencies...")))
    as (d2 & -> & _).
  rewrite !bind_assoc, bind_print, bind_eq.
  set (tr0 := log _ (Print "Testing Whisper installation...")).
  destruct (test_whisper_installation_cases w tr0) as (b & d & Heq & Hb).
  rewrite bind_eq, Heq. unfold ret, print. cbn [fst snd].
  exists tr0, b, d. unfold log at 1. rewrite <- app_assoc. auto.
Qed.

Lemma verification_failure_effect_witness :
  (exists tr0 b d,
     snd (WhisperDeps.run Hosts.all_fail) = (tr0 ++ d ++ [Print "Done!"])%list
     /\ WhisperDeps.test_whisper_installation Hosts.all_fail tr0
        = (Return b, (tr0 ++ d)%list)
     /\ b = negb (error_logged d)
     /\ fst (WhisperDeps.run Hosts.all_fail) = Exited 0)
  /\ (fst (FasterWhisper.run Hosts.broken_library) = Exited 1
      /\ exists err,
          printed (snd (FasterWhisper.run Hosts.broken_library))
                  ("❌ Verification failed: " ++ err) = true).
Proof.
  split.
  - apply (proj1 (verification_failure_effect Hosts.all_fail)).
    + reflexivity.
    + split.
      * intros tr argv e H. simpl in H. discriminate H.
      * intros tr e H. simpl in H. inversion H. left. reflexivity.
    + reflexivity.
  - apply (proj2 (verification_failure_effect Hosts.broken_library)).
    vm_compute. reflexivity.
Defined.

(** *** Exceptions *)




(** ** Further properties *)


(** X2: install-faster-whisper.py exits with status 0 exactly when the
    import check succeeded or the upgrade variant succeeded, and with
    status 1 otherwise. *)
Theorem faster_whisper_exit_status (w : World) :
  fst (FasterWhisper.run w)
  = Exited (if ok_in (snd (FasterWhisper.run w)) verify
               || ok_in (snd (FasterWhisper.run w)) fallback_install
            then 0 else 1).
Proof.
  fw_run; lazy; reflexivity.
Qed.

(** X4: install_package starts exactly one child, the pip invocation.
    It returns True exactly when pip's return code is 0; a non-zero return
    code or a CalledProcessError gives False after printing the failure
    line; any other exception of the call leaves install_package
    unchanged, without the failure line. *)
Theorem install_package_outcome (w : World) (package : string) (tr : list event) :
  exists r d,
    WhisperDeps.install_package package w tr = (r, (tr ++ d)%list)
    /\ spawned d = [pip w package]
    /\ r = match popen w tr (pip w package) with
           | Completed rc _ _ => Return (rc =? 0)%Z
           | Failed e => if isinstance e [CalledProcessError]
                         then Return false else Raise (Exc e)
           end
    /\ printed d ("Failed to install " ++ package)
       = match r with Return false => true | _ => false end.
Proof.
  unfold WhisperDeps.install_package, pip, WhisperDeps.pip_install.
  wd_exec; norm_trace; (eexists _, _; split; [reflexivity|]);
    repeat split; cbn [printed existsb orb];
    rewrite ?String.eqb_refl; reflexivity.
Qed.

(** X5: check_ffmpeg starts exactly one child, the probe.  It returns
    True for return code 0, False for a non-zero return code, a
    CalledProcessError or a FileNotFoundError, and lets any other
    exception through; it prints "ffmpeg is already installed" exactly
    when it returns True and "ffmpeg is not installed" exactly when it
    returns False. *)
Theorem check_ffmpeg_outcome (w : World) (tr : list event) :
  exists r d,
    WhisperDeps.check_ffmpeg w tr = (r, (tr ++ d)%list)
    /\ spawned d = [ffmpeg_check]
    /\ r = match popen w tr ffmpeg_check with
           | Completed rc _ _ => Return (rc =? 0)%Z
           | Failed e => if isinstance e [CalledProcessError; FileNotFoundError]
                         then Return false else Raise (Exc e)
           end
    /\ printed d "ffmpeg is not installed"
       = match r with Return false => true | _ => false end
    /\ printed d "ffmpeg is already installed" = returned_true r.
Proof.
  unfold WhisperDeps.check_ffmpeg, ffmpeg_check.
  wd_exec; norm_trace; (eexists _, _; split; [reflexivity|]);
    repeat split; reflexivity.
Qed.

(** X6: test_whisper_installation always returns a boolean and starts no
    child.  It imports whisper once; the model is loaded only if the
    import succeeded, and the result is True exactly when both the import
    and the model load succeeded. *)
Theorem test_whisper_installation_outcome (w : World) (tr : list event) :
  exists b d,
    WhisperDeps.test_whisper_installation w tr = (Return b, (tr ++ d)%list)
    /\ spawned d = []
    /\ imports "whisper" d = [import_module w tr "whisper"]
    /\ match import_module w tr "whisper" with
       | None => exists l, loads d = [l] /\ b = is_none l
       | Some _ => loads d = [] /\ b = false
       end.
Proof.
  unfold WhisperDeps.test_whisper_installation.
  wd_exec; norm_trace; (eexists _, _; split; [reflexivity|]);
    (split; [reflexivity|]); (split; [reflexivity|]);
    first [ split; reflexivity | eexists; split; reflexivity ].
Qed.

Ltac by_platform w :=
  unfold WhisperDeps.install_ffmpeg, category_of, Platform.classify;
  rewrite bind_ask; cbv zeta;
  destruct (lower (platform_system w) =? "windows")%string;
    [|destruct (lower (platform_system w) =? "darwin")%string;
      [|destruct (lower (platform_system w) =? "linux")%string;
        [rewrite !bind_ask;
         destruct (path_exists w "/etc/debian_version");
         [|rewrite bind_ask; destruct (path_exists w "/etc/arch-release")]|]]];
  cbn [Platform.invocations map].

(** X7: install_ffmpeg returns True exactly when the platform has an
    automated path and every invocation of it succeeded.  Whenever it
    returns False it has printed guidance, when it returns True it has
    printed nothing, and when an exception leaves it nothing was
    printed. *)
Theorem install_ffmpeg_result (w : World) (tr : list event) :
  exists r d,
    WhisperDeps.install_ffmpeg w tr = (r, (tr ++ d)%list)
    /\ returned_true r
       = negb (is_none (hd_error (Platform.invocations (category_of w))))
         && forallb (fun argv => ok_in d (Argv argv))
                    (Platform.invocations (category_of w))
    /\ match r with
       | Return b => existsb is_print d = negb b
       | Raise _ => existsb is_print d = false
       end.
Proof.
  by_platform w;
    wd_exec; norm_trace; (eexists _, _; split; [reflexivity|]);
    split; lazy; reflexivity.
Qed.

Lemma tuple_lt_3_8 (major minor : nat) (rest : list nat) :
  tuple_lt (major :: minor :: rest) [3; 8]
  = ((major <? 3) || ((major =? 3) && (minor <? 8)))%nat.
Proof.
  cbn [tuple_lt].
  destruct (Nat.ltb_spec major 3), (Nat.ltb_spec 3 major),
    (Nat.eqb_spec major 3), (Nat.ltb_spec minor 8), (Nat.ltb_spec 8 minor);
    try lia; try reflexivity; destruct rest; reflexivity.
Qed.

(** X8: the version check by numbers.  With sys.version_info starting
    (major, minor), check_python_version prints the error line and raises
    SystemExit(1) exactly when major < 3, or major = 3 and minor < 8;
    otherwise it prints the version and returns. *)
Theorem version_gate (w : World) (major minor : nat) (rest : list nat)
        (tr : list event) :
  version_info w = major :: minor :: rest ->
  WhisperDeps.check_python_version w tr
  = if ((major <? 3) || ((major =? 3) && (minor <? 8)))%nat
    then (Raise (SystemExit 1),
          log tr (Print "Error: Python 3.8 or higher is required"))
    else (Return tt, log tr (Print ("Python version: " ++ sys_version w))).
Proof.
  intros Hvi. rewrite <- tuple_lt_3_8 with (rest := rest), <- Hvi.
  destruct (tuple_lt (version_info w) [3; 8]) eqn:Hlt.
  - apply check_python_version_old. exact Hlt.
  - apply check_python_version_ok. exact Hlt.
Qed.

Lemma version_gate_witness :
  WhisperDeps.check_python_version Hosts.bare []
  = (Raise (SystemExit 1),
     [Print "Error: Python 3.8 or higher is required"]).
Proof. apply (version_gate Hosts.bare 2 7 [18] []). reflexivity. Defined.

Lemma failures_within_escapes (w : World) : failures_within w (escapes w).
Proof.
  split.
  - intros tr argv e H.
    destruct (isinstance e [CalledProcessError]) eqn:Hc; [left; reflexivity|].
    right.
    destruct (list_eq_dec string_dec argv ["ffmpeg"; "-version"]) as [Ha|Ha].
    + destruct (isinstance e [FileNotFoundError]) eqn:Hf.
      * left. auto.
      * right. left. exists tr, argv. auto.
    + right. left. exists tr, argv. split; [exact H|]. split; [exact Hc|].
      intros Ha'. destruct (Ha Ha').
  - intros tr e H.
    destruct (isinstance e [ImportError]) eqn:Hi; [left; reflexivity|].
    right. right. exists tr. auto.
Qed.

(** X9: what can end install-whisper-deps.py in a traceback.  An
    uncaught exception is always one the host raised when starting a child
    from an argument vector, not a CalledProcessError (and, for the ffmpeg
    probe, not a FileNotFoundError either), or one raised by
    [import tiktoken] that is not an ImportError. *)
Theorem only_unhandled_failures_escape (w : World) (e : exception) :
  fst (WhisperDeps.run w) = Uncaught e -> escapes w e.
Proof.
  intros H. destruct (tuple_lt (version_info w) [3; 8]) eqn:Hv.
  - rewrite run_old in H by exact Hv. discriminate H.
  - destruct (run_supported w (escapes w) Hv (failures_within_escapes w))
      as [H0|(e' & He' & Hx)].
    + rewrite H0 in H. discriminate H.
    + rewrite He' in H. injection H as <-. exact Hx.
Qed.

Lemma only_unhandled_failures_escape_witness :
  escapes Hosts.debian_without_sudo
          (mkExc FileNotFoundError
                 "[Errno 2] No such file or directory: 'sudo'").
Proof.
  apply only_unhandled_failures_escape. vm_compute. reflexivity.
Defined.

(** X3: install-faster-whisper.py never fails silently: a line starting
    with the cross mark is printed exactly when some child process of the
    run failed. *)
Theorem faster_whisper_no_silent_failure (w : World) :
  cross_printed (snd (FasterWhisper.run w))
  = existsb (fun o => negb (succeeded o))
            (all_answers (snd (FasterWhisper.run w))).
Proof.
  fw_run; lazy; reflexivity.
Qed.

Section EventClasses.

Variable w : World.
Variable X : exception -> Prop.
Variable E : event -> Prop.
Hypothesis HX : failures_within w X.
Hypothesis E_print : forall text, E (Print text).

Ltac may_basic :=
  repeat first
    [ apply may_ret
    | apply may_print; apply E_print
    | apply may_ask_bind
    | apply may_when
    | apply may_if
    | apply may_bind; [|intros ?] ].

Ltac may_spawn HE :=
  apply may_check_call;
  [ intros ?; apply HE; try (vm_compute; reflexivity)
  | intros ?; left; reflexivity
  | let H := fresh in
    intros ? ? H;
    destruct (proj1 HX _ _ _ H) as [?|[[? ?]|?]];
    [ left; assumption | discriminate | right; assumption ] ].

Lemma install_package_events (package : string) :
  (forall p o, E (Spawn (pip w p) o)) ->
  may w E X (WhisperDeps.install_package package).
Proof.
  intros HE. unfold WhisperDeps.install_package.
  apply may_try1; [|intros ?]; may_basic.
  apply may_check_call.
  - intros o. apply (HE package).
  - intros ?. left. reflexivity.
  - intros tr e H.
    destruct (proj1 HX _ _ _ H) as [?|[[? ?]|?]];
      [ left; assumption | discriminate | right; assumption ].
Qed.

Lemma install_ffmpeg_events :
  (forall c o, is_ffmpeg_install c = true -> E (Spawn c o)) ->
  may w E X WhisperDeps.install_ffmpeg.
Proof.
  intros HE. unfold WhisperDeps.install_ffmpeg.
  apply may_ask_bind. cbv zeta.
  repeat first
    [ apply may_if
    | apply may_ask_bind
    | apply may_try1; [|intros ?]
    | progress may_basic
    | may_spawn HE ].
Qed.

Lemma check_ffmpeg_events :
  (forall o, E (Spawn ffmpeg_check o)) ->
  may w E X WhisperDeps.check_ffmpeg.
Proof.
  intros HE. unfold WhisperDeps.check_ffmpeg.
  apply may_try1; [|intros ?]; may_basic.
  apply may_check_call.
  - intros o. apply HE.
  - intros ?. left. reflexivity.
  - intros tr e H.
    destruct (proj1 HX _ _ _ H) as [H1|[[_ H1]|H1]].
    + left. apply isinstance_weaken_l. exact H1.
    + left. apply isinstance_weaken_r. exact H1.
    + right. exact H1.
Qed.

Lemma ffmpeg_phase_events (args : Namespace) :
  (forall o, E (Spawn ffmpeg_check o)) ->
  (forall c o, is_ffmpeg_install c = true -> E (Spawn c o)) ->
  may w E X (Phases.ffmpeg_phase args).
Proof.
  intros H1 H2. unfold Phases.ffmpeg_phase.
  apply may_when. apply may_bind; [apply may_print; apply E_print|intros _].
  apply may_bind; [apply check_ffmpeg_events; exact H1|intros present].
  apply may_when. apply may_bind; [apply may_print; apply E_print|intros _].
  apply may_bind; [|intros _; apply may_ret].
  apply install_ffmpeg_events. exact H2.
Qed.

Lemma dependencies_events :
  (forall p o, E (Spawn (pip w p) o)) ->
  (forall o, E (Import "tiktoken" o)) ->
  may w E X WhisperDeps.install_whisper_dependencies.
Proof.
  intros H1 H2. unfold WhisperDeps.install_whisper_dependencies.
  apply may_bind; [|intros _].
  - apply may_for_each. intros package.
    apply may_bind; [apply may_print; apply E_print|intros _].
    apply may_bind; [apply install_package_events; exact H1|intros ok].
    apply may_when. apply may_print. apply E_print.
  - apply may_try1; [|intros ?].
    + apply may_bind; [|intros _; apply may_print; apply E_print].
      apply may_import; [exact H2|].
      intros tr e H. exact (proj2 HX _ _ H).
    + apply may_bind; [apply may_print; apply E_print|intros _].
      apply may_bind; [apply install_package_events; exact H1|intros ok].
      apply may_when. apply may_print. apply E_print.
Qed.

End EventClasses.

Lemma imports_app (m : string) (a b : list event) :
  imports m (a ++ b) = (imports m a ++ imports m b)%list.
Proof.
  induction a as [|ev a IH]; [reflexivity|].
  destruct ev; cbn [imports app]; auto.
  destruct (m =? module)%string; cbn [app]; rewrite IH; reflexivity.
Qed.

Lemma loads_app (a b : list event) :
  loads (a ++ b) = (loads a ++ loads b)%list.
Proof.
  induction a as [|ev a IH]; [reflexivity|].
  destruct ev; cbn [loads app]; auto. rewrite IH. reflexivity.
Qed.

Lemma provisioning_no_whisper (w : World) (d : list event) :
  Forall (provisioning_event w) d ->
  imports "whisper" d = [] /\ loads d = [].
Proof.
  induction 1 as [|ev d Hev _ [IH1 IH2]]; [split; reflexivity|].
  destruct ev; cbn [imports loads]; auto.
  - simpl in Hev. subst module. split; [exact IH1|exact IH2].
  - destruct Hev.
Qed.

(** X10: without --test, whisper is never imported and no model is
    loaded, on any host. *)
Theorem no_test_no_whisper (w : World) :
  test (parse_args w) = false ->
  imports "whisper" (snd (WhisperDeps.run w)) = []
  /\ loads (snd (WhisperDeps.run w)) = [].
Proof.
  intros Htest. destruct (tuple_lt (version_info w) [3; 8]) eqn:Hv.
  { rewrite run_old by exact Hv. split; reflexivity. }
  unfold WhisperDeps.run, run_module, WhisperDeps.script.
  rewrite main_supported by exact Hv.
  assert (Hm : may w (provisioning_event w) (fun _ => True)
                   (bind (Phases.ffmpeg_phase (parse_args w))
                         (fun _ => Phases.rest (parse_args w)))).
  { apply may_bind; [|intros _].
    - apply ffmpeg_phase_events; try apply anything_goes; intros; exact I.
    - unfold Phases.rest, Phases.test_phase. rewrite Htest. cbn [when].
      apply may_bind; [apply may_print; exact I|intros _].
      apply may_bind; [|intros _].
      + apply dependencies_events; try apply anything_goes; intros;
          try exact I. reflexivity.
      + apply may_bind; [apply may_ret|intros _; apply may_print; exact I]. }
  destruct (Hm (Phases.head w)) as (r & d & -> & Hd & _).
  assert (Ht : snd (let (o, tr) := (r, (Phases.head w ++ d)%list) in
                    match o with
                    | Return _ => (Exited 0, tr)
                    | Raise (SystemExit n) => (Exited n, tr)
                    | Raise (Exc e) => (Uncaught e, tr)
                    end) = (Phases.head w ++ d)%list).
  { destruct r as [a|[n|e]]; reflexivity. }
  rewrite Ht, imports_app, loads_app.
  destruct (provisioning_no_whisper w d Hd) as [-> ->].
  split; reflexivity.
Qed.

Lemma no_test_no_whisper_witness :
  imports "whisper" (snd (WhisperDeps.run Hosts.fresh_debian)) = []
  /\ loads (snd (WhisperDeps.run Hosts.fresh_debian)) = [].
Proof. apply no_test_no_whisper. reflexivity. Defined.

(** What [may] says about one particular execution. *)
Lemma may_at {A} (w : World) E X (c : M A) tr r d :
  may w E X c -> c w tr = (r, (tr ++ d)%list) ->
  Forall E d
  /\ match r with
     | Return _ => True
     | Raise (SystemExit _) => False
     | Raise (Exc e) => X e
     end.
Proof.
  intros Hm Heq. destruct (Hm tr) as (r' & d' & Heq' & Hd & Hr).
  rewrite Heq in Heq'. injection Heq' as -> Happ.
  apply app_inv_head in Happ. subst d'. auto.
Qed.

Lemma quiet_events (w : World) (d : list event) :
  Forall (quiet_event w) d ->
  (forall m, imports m d = [])
  /\ Forall (fun c => exists p, c = pip w p) (spawned d).
Proof.
  induction 1 as [|ev d Hev _ [IH1 IH2]]; [split; [reflexivity|constructor]|].
  destruct ev; cbn [imports spawned]; try destruct Hev; auto.
  split; [exact IH1|]. constructor; [eauto|exact IH2].
Qed.

Lemma ffmpeg_step_events (d : list event) :
  Forall ffmpeg_step_event d ->
  (forall m, imports m d = []) /\ Forall ffmpeg_command (spawned d).
Proof.
  induction 1 as [|ev d Hev _ [IH1 IH2]]; [split; [reflexivity|constructor]|].
  destruct ev; cbn [imports spawned]; try destruct Hev; auto.
  - split; [exact IH1|]. constructor; [left; assumption|exact IH2].
  - split; [exact IH1|]. constructor; [right; assumption|exact IH2].
Qed.

Lemma test_whisper_installation_shape (w : World) (tr : list event) :
  exists b d,
    WhisperDeps.test_whisper_installation w tr = (Return b, (tr ++ d)%list)
    /\ spawned d = [] /\ imports "tiktoken" d = [].
Proof.
  unfold WhisperDeps.test_whisper_installation.
  wd_exec; norm_trace; (eexists _, _; split; [reflexivity|]);
    split; reflexivity.
Qed.

Lemma test_phase_shape (args : Namespace) (w : World) (tr : list event) :
  exists d,
    Phases.test_phase args w tr = (Return tt, (tr ++ d)%list)
    /\ spawned d = [] /\ imports "tiktoken" d = [].
Proof.
  unfold Phases.test_phase. destruct (test args); cbn [when].
  - rewrite bind_print, bind_eq.
    destruct (test_whisper_installation_shape w
                (log tr (Print "Testing Whisper installation...")))
      as (b & d & -> & Hs & Hi).
    exists (Print "Testing Whisper installation..." :: d).
    unfold ret, log. rewrite <- app_assoc. cbn [app spawned imports]. auto.
  - exists []. rewrite app_nil_r. auto.
Qed.

Section AnyHost.

Variable w : World.

Lemma install_package_shape (package : string) (tr : list event) :
  exists r d,
    WhisperDeps.install_package package w tr = (r, (tr ++ d)%list)
    /\ spawned d = [pip w package]
    /\ forall n, r <> Raise (SystemExit n).
Proof.
  unfold WhisperDeps.install_package, pip, WhisperDeps.pip_install.
  wd_exec; norm_trace; (eexists _, _; split; [reflexivity|]);
    (split; [reflexivity|]); intros n; discriminate.
Qed.

(** The package loop on any host: on return every package was attempted;
    an exception cuts the list after the package that raised. *)
Lemma install_loop_prefix (packages : list string) (tr : list event) :
  exists r d k,
    for_each packages (fun package =>
      print ("Installing " ++ package ++ "...") ;;
      ok <- WhisperDeps.install_package package ;;
      when (negb ok) (print ("Warning: Failed to install " ++ package)))
      w tr
    = (r, (tr ++ d)%list)
    /\ spawned d = map (pip w) (firstn k packages)
    /\ k <= List.length packages
    /\ (forall a, r = Return a -> k = List.length packages).
Proof.
  revert tr. induction packages as [|package packages IH]; intros tr.
  - exists (Return tt), [], 0. rewrite app_nil_r. auto.
  - cbn [for_each]. rewrite bind_assoc, bind_print, bind_assoc, bind_eq.
    destruct (install_package_shape package
                (log tr (Print ("Installing " ++ package ++ "..."))))
      as (r & d & -> & Hd & Hr).
    destruct r as [b|x].
    + rewrite bind_eq.
      assert (Hw : exists d0,
                 when (negb b)
                      (print ("Warning: Failed to install " ++ package)) w
                      (log tr (Print ("Installing " ++ package ++ "...")) ++ d)%list
                 = (Return tt,
                    ((log tr (Print ("Installing " ++ package ++ "...")) ++ d)
                       ++ d0)%list)
                 /\ spawned d0 = []).
      { destruct b; cbn [negb when].
        - exists []. rewrite app_nil_r. auto.
        - exists [Print ("Warning: Failed to install " ++ package)]. auto. }
      destruct Hw as (d0 & -> & Hd0).
      destruct (IH ((log tr (Print ("Installing " ++ package ++ "...")) ++ d)
                      ++ d0)%list) as (r' & d' & k & -> & Hd' & Hk & Hr').
      exists r', (Print ("Installing " ++ package ++ "...") :: d ++ d0 ++ d')%list,
        (S k).
      split; [unfold log; rewrite <- !app_assoc; reflexivity|].
      split.
      * cbn [spawned firstn map]. rewrite !spawned_app, Hd, Hd0, Hd'.
        reflexivity.
      * split; [cbn [List.length]; lia|].
        intros a Ha. cbn [List.length]. rewrite (Hr' a Ha). reflexivity.
    + exists (Raise x), (Print ("Installing " ++ package ++ "...") :: d), 1.
      split; [unfold log; rewrite <- !app_assoc; reflexivity|].
      split; [cbn [spawned firstn map]; rewrite Hd; reflexivity|].
      split; [cbn [List.length]; lia|]. intros a Ha. discriminate Ha.
Qed.

Lemma dependencies_prefix (tr : list event) :
  exists r d k,
    WhisperDeps.install_whisper_dependencies w tr = (r, (tr ++ d)%list)
    /\ spawned d = firstn k (pip_plan w).
Proof.
  unfold WhisperDeps.install_whisper_dependencies, pip_plan.
  rewrite bind_eq.
  destruct (install_loop_prefix WhisperDeps.dependencies tr)
    as (r & d & k & -> & Hd & Hk & Hr).
  destruct r as [[]|x].
  - specialize (Hr tt eq_refl). subst k. rewrite firstn_all in Hd.
    unfold try_except. rewrite bind_eq. unfold import_ at 1.
    destruct (import_module w (tr ++ d)%list "tiktoken") as [e|] eqn:Hi.
    + unfold select_clause.
      destruct (isinstance e [ImportError]).
      * cbv beta iota. rewrite bind_print, bind_eq.
        destruct (install_package_shape "tiktoken"
                    (log (log (tr ++ d)%list (Import "tiktoken" (Some e)))
                         (Print "Installing tiktoken...")))
          as (r & d' & -> & Hd' & _).
        exists (match r with
                | Return _ => Return tt
                | Raise x => Raise x
                end),
          (d ++ Import "tiktoken" (Some e) :: Print "Installing tiktoken..."
             :: d' ++ match r with
                      | Return false =>
                          [Print "Warning: Failed to install tiktoken"]
                      | _ => []
                      end)%list,
          (S (List.length WhisperDeps.dependencies)).
        split.
        -- destruct r as [[|]|x]; cbn [negb when]; unfold ret, print, log;
             rewrite <- !app_assoc; cbn [app]; rewrite ?app_nil_r; reflexivity.
        -- rewrite !spawned_app. cbn [spawned]. rewrite spawned_app, Hd, Hd'.
           destruct r as [[|]|x]; reflexivity.
      * exists (Raise (Exc e)), (d ++ [Import "tiktoken" (Some e)])%list,
          (List.length WhisperDeps.dependencies).
        split; [unfold log; rewrite <- app_assoc; reflexivity|].
        rewrite spawned_app, Hd. reflexivity.
    + cbv beta iota zeta. unfold print.
      exists (Return tt),
        (d ++ [Import "tiktoken" None;
               Print "tiktoken is already installed"])%list,
        (List.length WhisperDeps.dependencies).
      split; [unfold log; rewrite <- !app_assoc; reflexivity|].
      rewrite spawned_app, Hd. reflexivity.
  - exists (Raise x), d, k. split; [reflexivity|].
    rewrite Hd, firstn_app, firstn_map.
    replace (k - List.length (map (pip w) WhisperDeps.dependencies)) with 0
      by (rewrite length_map; lia).
    cbn [firstn]. rewrite app_nil_r. reflexivity.
Qed.

Lemma rest_prefix (args : Namespace) (tr : list event) :
  exists r d k,
    Phases.rest args w tr = (r, (tr ++ d)%list)
    /\ spawned d = firstn k (pip_plan w).
Proof.
  unfold Phases.rest. rewrite bind_print, bind_eq.
  destruct (dependencies_prefix
              (log tr (Print "Installing Whisper dependencies...")))
    as (r & d & k & -> & Hd).
  destruct r as [[]|x].
  - rewrite bind_eq.
    destruct (test_phase_shape args w
                (log tr (Print "Installing Whisper dependencies...") ++ d)%list)
      as (d' & -> & Hd' & _).
    exists (Return tt),
      (Print "Installing Whisper dependencies..." :: d ++ d'
         ++ [Print "Done!"])%list, k.
    split; [unfold print, log; rewrite <- !app_assoc; reflexivity|].
    cbn [spawned]. rewrite !spawned_app, Hd, Hd'. cbn. rewrite app_nil_r.
    reflexivity.
  - exists (Raise x), (Print "Installing Whisper dependencies..." :: d), k.
    split; [unfold log; rewrite <- !app_assoc; reflexivity|].
    cbn [spawned]. exact Hd.
Qed.

End AnyHost.

(** X11: the order of children on every host.  The child processes of a
    run of install-whisper-deps.py are commands of the ffmpeg step (none
    with --skip-ffmpeg) followed by an initial segment of the pip plan:
    the dependency list in its order, then tiktoken.  No package is
    installed out of order or twice, whatever is raised. *)
Theorem children_follow_the_plan (w : World) :
  exists pre k,
    spawned (snd (WhisperDeps.run w)) = (pre ++ firstn k (pip_plan w))%list
    /\ Forall ffmpeg_command pre
    /\ (pre = [] \/ skip_ffmpeg (parse_args w) = false).
Proof.
  destruct (tuple_lt (version_info w) [3; 8]) eqn:Hv.
  { rewrite run_old by exact Hv. exists [], 0. auto. }
  unfold WhisperDeps.run, run_module, WhisperDeps.script.
  rewrite main_supported by exact Hv. rewrite bind_eq.
  assert (Hff : exists r1 d1,
             Phases.ffmpeg_phase (parse_args w) w (Phases.head w)
             = (r1, (Phases.head w ++ d1)%list)
             /\ Forall ffmpeg_command (spawned d1)
             /\ (spawned d1 = [] \/ skip_ffmpeg (parse_args w) = false)).
  { destruct (skip_ffmpeg (parse_args w)) eqn:Hs.
    - exists (Return tt), []. unfold Phases.ffmpeg_phase. rewrite Hs.
      rewrite app_nil_r. repeat split; [constructor|auto].
    - destruct (ffmpeg_phase_events w (fun _ => True) ffmpeg_step_event
                  (anything_goes w) (fun _ => I) (parse_args w)
                  (fun _ => or_introl eq_refl)
                  (fun _ _ H => or_intror H) (Phases.head w))
        as (r1 & d1 & Heq & Hd1 & _).
      exists r1, d1. split; [exact Heq|].
      split; [apply ffmpeg_step_events; exact Hd1|auto]. }
  destruct Hff as (r1 & d1 & -> & Hd1 & Hskip).
  destruct r1 as [[]|x].
  - destruct (rest_prefix w (parse_args w) (Phases.head w ++ d1)%list)
      as (r & d & k & -> & Hd).
    exists (spawned d1), k.
    split; [|split; [exact Hd1|]].
    + destruct r as [a|[n|e]]; cbn [snd];
        rewrite !spawned_app, Hd; reflexivity.
    + destruct Hskip; auto.
  - exists (spawned d1), 0.
    split; [|split; [exact Hd1|destruct Hskip; auto]].
    destruct x as [n|e]; cbn [snd]; rewrite spawned_app; cbn [firstn];
      rewrite app_nil_r; reflexivity.
Qed.

Section HandledHost.

Variable w : World.
Hypothesis Hw : handled_failures_only w.

Lemma quiet_pip (p : string) (o : completion) : quiet_event w (Spawn (pip w p) o).
Proof. exists p. reflexivity. Qed.

Lemma install_package_quiet (package : string) (tr : list event) r d :
  WhisperDeps.install_package package w tr = (r, (tr ++ d)%list) ->
  forall m, imports m d = [].
Proof.
  intros Heq.
  assert (Hm : may w (quiet_event w) (fun _ => False)
                   (WhisperDeps.install_package package)).
  { apply install_package_events; [exact Hw|intros; exact I|apply quiet_pip]. }
  exact (proj1 (quiet_events w d (proj1 (may_at _ _ _ _ _ _ _ Hm Heq)))).
Qed.

Lemma install_loop_quiet (packages : list string) (tr : list event) r d :
  for_each packages (fun package =>
      print ("Installing " ++ package ++ "...") ;;
      ok <- WhisperDeps.install_package package ;;
      when (negb ok) (print ("Warning: Failed to install " ++ package)))
      w tr
  = (r, (tr ++ d)%list) ->
  forall m, imports m d = [].
Proof.
  intros Heq.
  refine (proj1 (quiet_events w d (proj1 (may_at _ _ _ _ _ _ _ _ Heq)))).
  apply may_for_each. intros package.
  apply may_bind; [apply may_print; exact I|intros _].
  apply may_bind; [|intros ok; apply may_when; apply may_print; exact I].
  apply install_package_events; [exact Hw|intros; exact I|apply quiet_pip].
Qed.

(** The dependency step on a handled host: every package, then tiktoken
    exactly when its import failed. *)
Lemma dependencies_and_tiktoken (tr : list event) :
  exists d i,
    WhisperDeps.install_whisper_dependencies w tr
    = (Return tt, (tr ++ d)%list)
    /\ imports "tiktoken" d = [i]
    /\ spawned d
       = (map (pip w) WhisperDeps.dependencies
          ++ (if is_none i then [] else [pip w "tiktoken"]))%list.
Proof.
  unfold WhisperDeps.install_whisper_dependencies. rewrite bind_eq.
  destruct (install_loop_handled w Hw WhisperDeps.dependencies tr)
    as (d & Heq & Hd).
  pose proof (install_loop_quiet _ _ _ _ Heq "tiktoken") as Hq.
  rewrite Heq.
  unfold try_except. rewrite bind_eq. unfold import_ at 1.
  destruct (import_module w (tr ++ d)%list "tiktoken") as [e|] eqn:Hi.
  - unfold select_clause.
    destruct (proj2 Hw _ _ Hi) as [He|[]]. rewrite He. cbv beta iota.
    rewrite bind_print, bind_eq.
    destruct (install_package_handled w Hw "tiktoken"
                (log (log (tr ++ d)%list (Import "tiktoken" (Some e)))
                     (Print "Installing tiktoken...")))
      as (b & d' & Heq' & Hd').
    pose proof (install_package_quiet _ _ _ _ Heq' "tiktoken") as Hq'.
    rewrite Heq'.
    exists (d ++ Import "tiktoken" (Some e) :: Print "Installing tiktoken..."
              :: d' ++ (if b then []
                        else [Print "Warning: Failed to install tiktoken"]))%list,
      (Some e).
    split; [|split].
    + destruct b; cbn [negb when]; unfold ret, print, log;
        rewrite <- !app_assoc; cbn [app]; rewrite ?app_nil_r; reflexivity.
    + rewrite imports_app, Hq. cbn [imports String.eqb app].
      change ("tiktoken" =? "tiktoken")%string with true. cbv iota.
      rewrite imports_app, Hq'. destruct b; reflexivity.
    + rewrite !spawned_app. cbn [spawned]. rewrite spawned_app, Hd, Hd'.
      destruct b; reflexivity.
  - cbv beta iota zeta. unfold print.
    exists (d ++ [Import "tiktoken" None;
                  Print "tiktoken is already installed"])%list, None.
    split; [|split].
    + unfold log. rewrite <- !app_assoc. reflexivity.
    + rewrite imports_app, Hq. reflexivity.
    + rewrite spawned_app, Hd. reflexivity.
Qed.

End HandledHost.

(** X12: main discards the result of install_ffmpeg.  On a supported
    interpreter whose host fails only in the handled ways, whatever the
    ffmpeg step did, every package of the dependency list is attempted
    afterwards in the order of the list; tiktoken is imported once and is
    installed exactly when that import failed. *)
Theorem dependencies_follow_any_ffmpeg_outcome (w : World) :
  python_supported w ->
  handled_failures_only w ->
  exists pre i,
    spawned (snd (WhisperDeps.run w))
    = (pre ++ map (pip w) WhisperDeps.dependencies
           ++ (if is_none i then [] else [pip w "tiktoken"]))%list
    /\ Forall ffmpeg_command pre
    /\ imports "tiktoken" (snd (WhisperDeps.run w)) = [i].
Proof.
  intros Hv Hw.
  unfold WhisperDeps.run, run_module, WhisperDeps.script.
  rewrite main_supported by exact Hv. rewrite bind_eq.
  destruct (ffmpeg_phase_events w (fun _ => False) ffmpeg_step_event
              Hw (fun _ => I) (parse_args w)
              (fun _ => or_introl eq_refl)
              (fun _ _ H => or_intror H) (Phases.head w))
    as (r1 & d1 & -> & Hd1 & Hr1).
  destruct r1 as [[]|[n|e]]; try contradiction.
  destruct (ffmpeg_step_events d1 Hd1) as [Hi1 Hs1].
  unfold Phases.rest. rewrite bind_print, bind_eq.
  destruct (dependencies_and_tiktoken w Hw
              (log (Phases.head w ++ d1)%list
                   (Print "Installing Whisper dependencies...")))
    as (d2 & i & -> & Hi2 & Hs2).
  rewrite bind_eq.
  destruct (test_phase_shape (parse_args w) w
              (log (Phases.head w ++ d1)%list
                   (Print "Installing Whisper dependencies...") ++ d2)%list)
    as (d3 & -> & Hs3 & Hi3).
  unfold print. cbn [snd].
  exists (spawned d1), i. split; [|split; [exact Hs1|]].
  - unfold log. rewrite !spawned_app, Hs2, Hs3. cbn [spawned Phases.head app].
    rewrite !app_nil_r. reflexivity.
  - unfold log. rewrite !imports_app, Hi1, Hi2, Hi3. reflexivity.
Qed.

Lemma dependencies_follow_any_ffmpeg_outcome_witness :
  exists pre i,
    spawned (snd (WhisperDeps.run Hosts.all_fail))
    = (pre ++ map (pip Hosts.all_fail) WhisperDeps.dependencies
           ++ (if is_none i then [] else [pip Hosts.all_fail "tiktoken"]))%list
    /\ Forall ffmpeg_command pre
    /\ imports "tiktoken" (snd (WhisperDeps.run Hosts.all_fail)) = [i].
Proof.
  apply (dependencies_follow_any_ffmpeg_outcome Hosts.all_fail).
  - reflexivity.
  - split.
    + intros tr argv e H. simpl in H. discriminate H.
    + intros tr e H. simpl in H. inversion H. left. reflexivity.
Defined.

Lemma install_ffmpeg_started (w : World) (tr : list event) :
  exists r d,
    WhisperDeps.install_ffmpeg w tr = (r, (tr ++ d)%list)
    /\ spawned d = started (plan_of w) d.
Proof.
  unfold plan_of.
  by_platform w;
    wd_exec; norm_trace; (eexists _, _; split; [reflexivity|]);
    lazy; reflexivity.
Qed.

Lemma is_ffmpeg_install_cases (c : command) :
  is_ffmpeg_install c = true -> In c ffmpeg_install_commands.
Proof.
  unfold is_ffmpeg_install. intros H. apply existsb_exists in H.
  destruct H as (x & Hx & Hc). apply command_eqb_eq in Hc. subst x. exact Hx.
Qed.

Lemma plan_is_ffmpeg_install (w : World) (c : command) :
  In c (plan_of w) -> is_ffmpeg_install c = true.
Proof.
  unfold plan_of. destruct (category_of w); cbn [Platform.invocations map In];
    intros H; repeat destruct H as [H|H]; destruct H; reflexivity.
Qed.

Lemma ffmpeg_install_not_pip (w : World) (c : command) (package : string) :
  is_ffmpeg_install c = true -> command_eqb c (pip w package) = false.
Proof.
  intros H. apply is_ffmpeg_install_cases in H.
  unfold pip, WhisperDeps.pip_install.
  cbn [ffmpeg_install_commands In] in H.
  repeat destruct H as [H|H]; destruct H;
    cbn [command_eqb argv_eqb];
    match goal with
    | |- context [String.eqb ?x (sys_executable w)] =>
        destruct (String.eqb x (sys_executable w))
    end; reflexivity.
Qed.

Lemma ffmpeg_install_not_probe (c : command) :
  is_ffmpeg_install c = true -> command_eqb c ffmpeg_check = false.
Proof.
  intros H. apply is_ffmpeg_install_cases in H.
  cbn [ffmpeg_install_commands In] in H.
  repeat destruct H as [H|H]; destruct H; reflexivity.
Qed.

Lemma started_ext (plan : list command) (tr tr' : list event) :
  (forall c, In c plan -> answers c tr = answers c tr') ->
  started plan tr = started plan tr'.
Proof.
  induction plan as [|c plan IH]; intros H; [reflexivity|].
  cbn [started]. unfold ok_in. rewrite (H c (or_introl eq_refl)).
  rewrite IH; [reflexivity|]. intros c' Hc'. apply H. right. exact Hc'.
Qed.

(** The ffmpeg step, seen from its own events. *)
Lemma ffmpeg_phase_installs (w : World) (tr : list event) :
  exists r d,
    Phases.ffmpeg_phase (parse_args w) w tr = (r, (tr ++ d)%list)
    /\ ffmpeg_installs d
       = if existsb reports_absent (answers ffmpeg_check d)
         then started (plan_of w) d else [].
Proof.
  destruct (ffmpeg_phase_cases (parse_args w) w tr) as (r & d & Heq & Hcases).
  exists r, d. split; [exact Heq|].
  destruct Hcases as [->|[(o & Ho & ->)|[(o & Ho & Ha & ->)
                          |(o & r' & d' & Ho & Ha & -> & Hd' & Hi)]]].
  - reflexivity.
  - cbn. rewrite (succeeded_not_absent o Ho). reflexivity.
  - cbn. rewrite Ha. reflexivity.
  - destruct (install_ffmpeg_started w
                (tr ++ [ Print "Checking ffmpeg..."; Spawn ffmpeg_check o;
                         Print "ffmpeg is not installed";
                         Print "Installing ffmpeg..." ])%list)
      as (r2 & d2 & Heq2 & Hsp).
    rewrite Heq2 in Hi. injection Hi as _ Hd. apply app_inv_head in Hd.
    subst d2.
    rewrite ffmpeg_installs_app, answers_app.
    rewrite (install_events_installs d' Hd').
    cbn [answers ffmpeg_installs spawned filter app existsb].
    change (command_eqb ffmpeg_check ffmpeg_check) with true. cbv iota.
    cbn [existsb app]. rewrite Ha. cbn [orb].
    rewrite Hsp at 1. apply started_ext.
    intros c Hc. cbn [answers].
    rewrite (ffmpeg_install_not_probe c (plan_is_ffmpeg_install w c Hc)).
    reflexivity.
Qed.

(** X13: the binary installer in a whole run, on every platform.  The
    package-manager invocations of a run are empty unless the probe
    reported ffmpeg absent; then they are the platform category's
    invocations in order, each started only after the previous one
    succeeded. *)
Theorem binary_install_by_category (w : World) :
  ffmpeg_installs (snd (WhisperDeps.run w))
  = if existsb reports_absent (answers ffmpeg_check (snd (WhisperDeps.run w)))
    then started (plan_of w) (snd (WhisperDeps.run w))
    else [].
Proof.
  destruct (tuple_lt (version_info w) [3; 8]) eqn:Hv.
  { rewrite run_old by exact Hv. reflexivity. }
  destruct (run_split w
              (fun d => ffmpeg_installs d
                        = if existsb reports_absent (answers ffmpeg_check d)
                          then started (plan_of w) d else [])
              Hv (ffmpeg_phase_installs w))
    as (t & d1 & d2 & -> & HP & Hd2).
  cbn [snd].
  rewrite !answers_app, !ffmpeg_installs_app.
  rewrite (proj1 (head_quiet w ffmpeg_check)),
    (proj2 (head_quiet w ffmpeg_check)).
  rewrite (pip_events_no_answers w ffmpeg_check d2
             (not_pip_2 w "ffmpeg" "-version") Hd2).
  rewrite (pip_events_no_installs w d2 Hd2).
  rewrite !app_nil_r. cbn [app]. rewrite HP.
  destruct (existsb reports_absent (answers ffmpeg_check d1)); [|reflexivity].
  apply started_ext. intros c Hc.
  rewrite !answers_app.
  rewrite (proj1 (head_quiet w c)).
  rewrite (pip_events_no_answers w c d2
             (fun p => ffmpeg_install_not_pip w c p
                         (plan_is_ffmpeg_install w c Hc)) Hd2).
  rewrite app_nil_r. reflexivity.
Qed.

Lemma printed_in (tr : list event) (text : string) :
  In (Print text) tr -> printed tr text = true.
Proof.
  intros H. unfold printed. apply existsb_exists.
  exists (Print text). split; [exact H|apply String.eqb_refl].
Qed.

Lemma failure_reported_app_r (a b : list event) (package : string) :
  failure_reported b package -> failure_reported (a ++ b) package.
Proof.
  intros [H1 H2]. unfold failure_reported. rewrite !printed_app, H1, H2.
  rewrite !orb_true_r. auto.
Qed.

Lemma failure_reported_app_l (a b : list event) (package : string) :
  failure_reported a package -> failure_reported (a ++ b) package.
Proof.
  intros [H1 H2]. unfold failure_reported. rewrite !printed_app, H1, H2. auto.
Qed.

Lemma failed_in_app (a b : list event) (c : command) :
  failed_in (a ++ b) c -> failed_in a c \/ failed_in b c.
Proof.
  unfold failed_in. rewrite answers_app, existsb_app. apply orb_true_iff.
Qed.

Lemma pip_injective (w : World) (a b : string) :
  command_eqb (pip w a) (pip w b) = true -> a = b.
Proof.
  intros H. apply command_eqb_eq in H. injection H as H. exact H.
Qed.

Lemma no_children_no_answers (c : command) (d : list event) :
  spawned d = [] -> answers c d = [].
Proof.
  induction d as [|ev d IH]; [reflexivity|].
  destruct ev; cbn [spawned answers]; auto. discriminate.
Qed.

Lemma ffmpeg_commands_no_pip_answers (w : World) (package : string)
      (d : list event) :
  Forall ffmpeg_command (spawned d) -> answers (pip w package) d = [].
Proof.
  induction d as [|ev d IH]; [reflexivity|].
  destruct ev; cbn [spawned answers]; auto.
  intros H. inversion H as [|c l Hc Hl]; subst.
  destruct (command_eqb (pip w package) cmd) eqn:He; [|auto].
  apply command_eqb_eq in He. subst cmd. exfalso.
  destruct Hc as [Hc|Hc].
  - discriminate Hc.
  - rewrite pip_is_not_ffmpeg_install in Hc. discriminate Hc.
Qed.

Section Reporting.

Variable w : World.
Hypothesis Hw : handled_failures_only w.

(** One package on a handled host: the child either succeeds, or fails and
    the failure line is printed. *)
Lemma install_package_exact (package : string) (tr : list event) :
  exists o,
    (succeeded o = true
     /\ WhisperDeps.install_package package w tr
        = (Return true, (tr ++ [Spawn (pip w package) o])%list))
    \/ (succeeded o = false
        /\ WhisperDeps.install_package package w tr
           = (Return false,
              (tr ++ [ Spawn (pip w package) o;
                       Print ("Failed to install " ++ package) ])%list)).
Proof.
  unfold WhisperDeps.install_package, pip, WhisperDeps.pip_install.
  wd_exec; norm_trace;
    try (eexists; left; split; [|reflexivity]; reflexivity);
    try (eexists; right; split; [|reflexivity]; reflexivity).
  exfalso.
  match goal with
  | H : popen _ _ _ = Failed _ |- _ =>
      destruct (proj1 Hw _ _ _ H) as [Hc|[[Hc _]|[]]]
  end.
  - rewrite Hc in Hi. discriminate Hi.
  - discriminate Hc.
Qed.

(** One round of the loop body. *)
Lemma install_round (package : string) (tr : list event) :
  exists d,
    (print ("Installing " ++ package ++ "...") ;;
     ok <- WhisperDeps.install_package package ;;
     when (negb ok) (print ("Warning: Failed to install " ++ package)))
      w tr
    = (Return tt, (tr ++ d)%list)
    /\ forall p, failed_in d (pip w p) -> failure_reported d p.
Proof.
  rewrite bind_print, bind_eq.
  destruct (install_package_exact package
              (log tr (Print ("Installing " ++ package ++ "..."))))
    as (o & [[Ho ->]|[Ho ->]]); cbn [negb when].
  - exists [Print ("Installing " ++ package ++ "..."); Spawn (pip w package) o].
    split; [unfold ret, log; rewrite <- app_assoc; reflexivity|].
    intros p. unfold failed_in. cbn [answers].
    destruct (command_eqb (pip w p) (pip w package)); cbn [existsb];
      rewrite ?Ho; discriminate.
  - exists [Print ("Installing " ++ package ++ "..."); Spawn (pip w package) o;
            Print ("Failed to install " ++ package);
            Print ("Warning: Failed to install " ++ package)].
    split; [unfold print, log; rewrite <- !app_assoc; reflexivity|].
    intros p. unfold failed_in. cbn [answers].
    destruct (command_eqb (pip w p) (pip w package)) eqn:He;
      [|discriminate].
    apply pip_injective in He. subst p. intros _.
    split; apply printed_in; cbn [In]; auto.
Qed.

Lemma install_loop_reports (packages : list string) (tr : list event) :
  exists d,
    for_each packages (fun package =>
      print ("Installing " ++ package ++ "...") ;;
      ok <- WhisperDeps.install_package package ;;
      when (negb ok) (print ("Warning: Failed to install " ++ package)))
      w tr
    = (Return tt, (tr ++ d)%list)
    /\ forall p, failed_in d (pip w p) -> failure_reported d p.
Proof.
  revert tr. induction packages as [|package packages IH]; intros tr.
  - exists []. rewrite app_nil_r. split; [reflexivity|].
    intros p H. discriminate H.
  - cbn [for_each]. rewrite bind_eq.
    destruct (install_round package tr) as (d & -> & Hd).
    destruct (IH (tr ++ d)%list) as (d' & -> & Hd').
    exists (d ++ d')%list. split; [rewrite app_assoc; reflexivity|].
    intros p H. apply failed_in_app in H. destruct H as [H|H].
    + apply failure_reported_app_l. apply Hd. exact H.
    + apply failure_reported_app_r. apply Hd'. exact H.
Qed.

Lemma dependencies_report (tr : list event) :
  exists d,
    WhisperDeps.install_whisper_dependencies w tr
    = (Return tt, (tr ++ d)%list)
    /\ forall p, failed_in d (pip w p) -> failure_reported d p.
Proof.
  unfold WhisperDeps.install_whisper_dependencies. rewrite bind_eq.
  destruct (install_loop_reports WhisperDeps.dependencies tr)
    as (d & -> & Hd).
  unfold try_except. rewrite bind_eq. unfold import_ at 1.
  destruct (import_module w (tr ++ d)%list "tiktoken") as [e|] eqn:Hi.
  - unfold select_clause.
    destruct (proj2 Hw _ _ Hi) as [He|[]]. rewrite He. cbv beta iota.
    destruct (install_round "tiktoken"
                (log (tr ++ d)%list (Import "tiktoken" (Some e))))
      as (d' & Heq & Hd').
    cbn [append] in Heq. cbn [append]. rewrite Heq.
    exists (d ++ Import "tiktoken" (Some e) :: d')%list.
    split; [unfold log; rewrite <- !app_assoc; reflexivity|].
    intros p H. apply failed_in_app in H. destruct H as [H|H].
    + apply failure_reported_app_l. apply Hd. exact H.
    + apply failure_reported_app_r.
      apply (failure_reported_app_r [Import "tiktoken" (Some e)]).
      apply Hd'. exact H.
  - cbv beta iota zeta. unfold print.
    exists (d ++ [Import "tiktoken" None;
                  Print "tiktoken is already installed"])%list.
    split; [unfold log; rewrite <- !app_assoc; reflexivity|].
    intros p H. apply failed_in_app in H. destruct H as [H|H].
    + apply failure_reported_app_l. apply Hd. exact H.
    + discriminate H.
Qed.

End Reporting.

(** X14: no package installation fails silently.  On a supported
    interpreter whose host fails only in the handled ways, every package
    whose pip invocation failed has both its failure line and its warning
    line printed. *)
Theorem failed_packages_are_reported (w : World) (package : string) :
  python_supported w ->
  handled_failures_only w ->
  failed_in (snd (WhisperDeps.run w)) (pip w package) ->
  failure_reported (snd (WhisperDeps.run w)) package.
Proof.
  intros Hv Hw.
  unfold WhisperDeps.run, run_module, WhisperDeps.script.
  rewrite main_supported by exact Hv. rewrite bind_eq.
  destruct (ffmpeg_phase_events w (fun _ => False) ffmpeg_step_event
              Hw (fun _ => I) (parse_args w)
              (fun _ => or_introl eq_refl)
              (fun _ _ H => or_intror H) (Phases.head w))
    as (r1 & d1 & -> & Hd1 & Hr1).
  destruct r1 as [[]|[n|e]]; try contradiction.
  destruct (ffmpeg_step_events d1 Hd1) as [_ Hs1].
  unfold Phases.rest. rewrite bind_print, bind_eq.
  destruct (dependencies_report w Hw
              (log (Phases.head w ++ d1)%list
                   (Print "Installing Whisper dependencies...")))
    as (d2 & -> & Hd2).
  rewrite bind_eq.
  destruct (test_phase_shape (parse_args w) w
              (log (Phases.head w ++ d1)%list
                   (Print "Installing Whisper dependencies...") ++ d2)%list)
    as (d3 & -> & Hs3 & _).
  unfold print, log. cbn [snd]. intros H.
  rewrite <- !app_assoc in H. rewrite <- !app_assoc.
  apply failed_in_app in H. destruct H as [H|H]; [discriminate H|].
  apply failure_reported_app_r.
  apply failed_in_app in H. destruct H as [H|H].
  { unfold failed_in in H.
    rewrite (ffmpeg_commands_no_pip_answers w package d1 Hs1) in H.
    discriminate H. }
  apply failure_reported_app_r.
  apply failed_in_app in H. destruct H as [H|H]; [discriminate H|].
  apply failure_reported_app_r.
  apply failed_in_app in H. destruct H as [H|H].
  - apply failure_reported_app_l. apply Hd2. exact H.
  - apply failed_in_app in H. destruct H as [H|H].
    + unfold failed_in in H.
      rewrite (no_children_no_answers _ d3 Hs3) in H. discriminate H.
    + discriminate H.
Qed.

Lemma failed_packages_are_reported_witness :
  failure_reported (snd (WhisperDeps.run Hosts.all_fail)) "torch".
Proof.
  apply failed_packages_are_reported.
  - reflexivity.
  - split.
    + intros tr argv e H. simpl in H. discriminate H.
    + intros tr e H. simpl in H. inversion H. left. reflexivity.
  - vm_compute. reflexivity.
Defined.
